(** * FloNotes: content classification and unified grocery list

    A shallow embedding of the pure logic of the FloNotes application:

    - the two [categorizeFoodItem] keyword categorizers of the two
      [NotesScreen] revisions,
    - [buildUnifiedGroceryList] of both revisions,
    - [addItemsFromVoiceOrNote] of [GroceryManager.tsx],
    - the [ContentTypeDetector] component together with the layout choice
      of [TaskList],
    - the try/catch skeleton of the AI gateway functions of [lib/ai.ts].

    Strings are Rocq strings (sequences of 8-bit characters); the
    JavaScript string primitives are modelled on the ASCII range.  JavaScript
    objects used as dictionaries are [gmap]s; values of type [any] are
    JSON-like trees. *)

From Stdlib Require Import String Ascii List Bool ZArith Lia.
From stdpp Require Import base option list strings pretty gmap.

Local Open Scope string_scope.
Local Open Scope list_scope.

(** ** JavaScript string primitives *)

Module JS.

(** One character of [String.prototype.toLowerCase]: the letters [A]-[Z]
    are mapped to [a]-[z], every other character is kept. *)
Definition lower_char (c : ascii) : ascii :=
  let n := nat_of_ascii c in
  if (65 <=? n)%nat && (n <=? 90)%nat then ascii_of_nat (n + 32) else c.

(** [s.toLowerCase()] *)
Fixpoint toLowerCase (s : string) : string :=
  match s with
  | EmptyString => EmptyString
  | String c s' => String (lower_char c) (toLowerCase s')
  end.

(** [s.includes(sub)]: [sub] occurs in [s] as a contiguous substring. *)
Fixpoint includes (s sub : string) : bool :=
  String.prefix sub s ||
  match s with
  | EmptyString => false
  | String _ s' => includes s' sub
  end.

(** Removal of leading white space. *)
Fixpoint trimStart (s : string) : string :=
  match s with
  | EmptyString => EmptyString
  | String c s' => if Ascii.is_space c then trimStart s' else s
  end.

(** [s.trim()]: white space is removed at both ends. *)
Definition trim (s : string) : string :=
  String.rev (trimStart (String.rev (trimStart s))).

End JS.

(** ** Exceptions *)

(** The exceptions the modelled code can raise. *)
Inductive JSError : Type :=
  | TypeError (target property : string)
      (** reading [property] of [null] or [undefined] *)
  | SyntaxError (detail : string)
      (** raised by [JSON.parse] *)
  | RejectedError (detail : string).
      (** a rejected promise or any other failure of a remote call *)

(** A computation that returns a value or throws. *)
Inductive result (A : Type) : Type :=
  | Ret (a : A)
  | Throw (e : JSError).
Arguments Ret {A} a.
Arguments Throw {A} e.

Definition bind {A B : Type} (m : result A) (k : A -> result B) : result B :=
  match m with
  | Ret a => k a
  | Throw e => Throw e
  end.

Notation "'let*' x ':=' m 'in' k" := (bind m (fun x => k))
  (at level 10, x name, m at level 100, k at level 200, only parsing).

(** [try { body } catch (error) { handler(error) }] *)
Definition try_catch {A : Type} (body : result A) (handler : JSError -> result A)
  : result A :=
  match body with
  | Ret a => Ret a
  | Throw e => handler e
  end.

(** [l.forEach(x => ...)] where the callback updates a state and may throw. *)
Fixpoint forEach {A S : Type} (f : S -> A -> result S) (l : list A) (s : S)
  : result S :=
  match l with
  | [] => Ret s
  | x :: l' => let* s' := f s x in forEach f l' s'
  end.

(** ** Notes and the unified grocery list *)

Record Task : Type := {
  task_text : string;
  task_done : bool;
  task_category : string
}.

Record RecipeDetails : Type := {
  ingredients : list string;
  instructions : list string;
  prepTime : option string;
  cookTime : option string;
  servings : option Z
}.

Record Note : Type := {
  note_id : string;
  note_title : string;
  note_category : string;
  note_tasks : list Task;
  isRecipe : option bool;
  recipeDetails : option RecipeDetails
}.

(** An entry of the unified grocery list:
    [{text: string; done: boolean; recipeSource?: string}]. *)
Record Item : Type := {
  item_text : string;
  item_done : bool;
  recipeSource : option string
}.

(** The object [{[category: string]: Array<Item>}]. *)
Abbreviation GroceryItems := (gmap string (list Item)).

(** The component state read and written by [buildUnifiedGroceryList]. *)
Record ScreenState : Type := {
  notes : list Note;
  unifiedGroceryList : GroceryItems
}.

(** [Object.keys(o)]; the enumeration order is not modelled. *)
Definition Object_keys (o : GroceryItems) : list string := (map_to_list o).*1.

(** [FOOD_CATEGORIES], the same constant in both revisions of the screen. *)
Definition FOOD_CATEGORIES : list string :=
  [ "produce"; "dairy"; "meat"; "seafood"; "frozen"; "pantry";
    "bakery"; "beverages"; "snacks"; "spices"; "other" ].

(** The part of [buildUnifiedGroceryList] the two revisions share verbatim:
    initialisation and the loop over the notes. *)
Section UnifiedListBuilder.

Variable categorizeFoodItem : string -> string.

(** The empty object after [FOOD_CATEGORIES.forEach(c => groceryItems[c] = [])]. *)
Definition initCategories : GroceryItems :=
  foldl (fun groceryItems category => <[category := []]> groceryItems)
        ∅ FOOD_CATEGORIES.

(** [if (!groceryItems[category].some(i => i.text.toLowerCase() ===
    text.toLowerCase())) groceryItems[category].push(item)], where [text]
    is the text of the pushed item.  Reading [some] of a missing category
    throws. *)
Definition addIfAbsent (groceryItems : GroceryItems) (item : Item)
  : result GroceryItems :=
  let category := categorizeFoodItem (item_text item) in
  match groceryItems !! category with
  | None => Throw (TypeError "undefined" "some")
  | Some items =>
      if existsb (fun i => String.eqb (JS.toLowerCase (item_text i))
                                      (JS.toLowerCase (item_text item))) items
      then Ret groceryItems
      else Ret (<[category := items ++ [item]]> groceryItems)
  end.

Definition ingredientItem (note : Note) (ingredient : string) : Item :=
  {| item_text := ingredient; item_done := false;
     recipeSource := Some (note_title note) |}.

Definition taskItem (task : Task) : Item :=
  {| item_text := task_text task; item_done := task_done task;
     recipeSource := None |}.

(** [note.isRecipe && note.recipeDetails?.ingredients] as a condition,
    returning the ingredients to walk over. *)
Definition recipeIngredients (note : Note) : option (list string) :=
  match isRecipe note, recipeDetails note with
  | Some true, Some details => Some (ingredients details)
  | _, _ => None
  end.

Definition isGroceryNote (note : Note) : bool :=
  String.eqb (JS.toLowerCase (note_category note)) "grocery" ||
  String.eqb (JS.toLowerCase (note_category note)) "shopping".

(** The body of [notes.forEach(note => ...)]. *)
Definition processNote (groceryItems : GroceryItems) (note : Note)
  : result GroceryItems :=
  let* g1 :=
        match recipeIngredients note with
        | Some ingredients =>
            forEach (fun g ingredient => addIfAbsent g (ingredientItem note ingredient))
                    ingredients groceryItems
        | None => Ret groceryItems
        end in
  if isGroceryNote note
  then forEach (fun g task => addIfAbsent g (taskItem task)) (note_tasks note) g1
  else Ret g1.

Definition collectGroceryItems (notes : list Note) : result GroceryItems :=
  forEach processNote notes initCategories.

(** The items the loop tries to insert, in the order it meets them. *)
Definition noteCandidates (note : Note) : list Item :=
  match recipeIngredients note with
  | Some ingredients => map (ingredientItem note) ingredients
  | None => []
  end ++
  (if isGroceryNote note then map taskItem (note_tasks note) else []).

Definition candidates (notes : list Note) : list Item :=
  flat_map noteCandidates notes.

End UnifiedListBuilder.

(** [l.map(x => ...)] where the callback may throw. *)
Fixpoint mapM {A B : Type} (f : A -> result B) (l : list A) : result (list B) :=
  match l with
  | [] => Ret []
  | x :: l' => let* y := f x in let* ys := mapM f l' in Ret (y :: ys)
  end.

(** [{...task, done: !task.done}] *)
Definition toggleTask (task : Task) : Task :=
  {| task_text := task_text task; task_done := negb (task_done task);
     task_category := task_category task |}.

(** The callback of [toggleTaskDone]: a note with another id is returned as
    it is; reading [done] of a missing task throws. *)
Definition toggleTaskOfNote (noteId : string) (taskIndex : nat) (note : Note)
  : result Note :=
  if String.eqb (note_id note) noteId then
    match note_tasks note !! taskIndex with
    | None => Throw (TypeError "undefined" "done")
    | Some task =>
        Ret {| note_id := note_id note; note_title := note_title note;
               note_category := note_category note;
               note_tasks := <[taskIndex := toggleTask task]> (note_tasks note);
               isRecipe := isRecipe note;
               recipeDetails := recipeDetails note |}
    end
  else Ret note.

(** [toggleTaskDone(noteId, taskIndex)], the same in both revisions of the
    screen: the new value of [notes]. *)
Definition toggleTaskDone (notes : list Note) (noteId : string)
    (taskIndex : nat) : result (list Note) :=
  mapM (toggleTaskOfNote noteId taskIndex) notes.

(** [{...item, done: !item.done}] *)
Definition toggleItem (item : Item) : Item :=
  {| item_text := item_text item; item_done := negb (item_done item);
     recipeSource := recipeSource item |}.

(** ** The two revisions of the notes screen *)

(** First revision of [NotesScreen] (the one that deletes empty categories
    in place). *)
Module NotesScreenA.

Definition categorizeFoodItem (item : string) : string :=
  let item := JS.toLowerCase item in
  if JS.includes item "fruit" || JS.includes item "vegetable" ||
     JS.includes item "lettuce" || JS.includes item "tomato" ||
     JS.includes item "onion" || JS.includes item "potato"
  then "produce"
  else if JS.includes item "milk" || JS.includes item "cheese" ||
          JS.includes item "yogurt" || JS.includes item "butter" ||
          JS.includes item "cream"
  then "dairy"
  else if JS.includes item "chicken" || JS.includes item "beef" ||
          JS.includes item "pork" || JS.includes item "turkey"
  then "meat"
  else if JS.includes item "fish" || JS.includes item "shrimp" ||
          JS.includes item "salmon" || JS.includes item "tuna"
  then "seafood"
  else if JS.includes item "frozen" || JS.includes item "ice cream"
  then "frozen"
  else if JS.includes item "flour" || JS.includes item "sugar" ||
          JS.includes item "oil" || JS.includes item "pasta" ||
          JS.includes item "can" || JS.includes item "sauce"
  then "pantry"
  else if JS.includes item "bread" || JS.includes item "bagel" ||
          JS.includes item "muffin" || JS.includes item "bakery"
  then "bakery"
  else if JS.includes item "juice" || JS.includes item "soda" ||
          JS.includes item "water" || JS.includes item "coffee" ||
          JS.includes item "tea"
  then "beverages"
  else if JS.includes item "chip" || JS.includes item "cookie" ||
          JS.includes item "crackers" || JS.includes item "nuts"
  then "snacks"
  else if JS.includes item "spice" || JS.includes item "herb" ||
          JS.includes item "salt" || JS.includes item "pepper" ||
          JS.includes item "seasoning"
  then "spices"
  else "other".

(** Every keyword tested by [categorizeFoodItem], in test order. *)
Definition KEYWORDS : list string :=
  [ "fruit"; "vegetable"; "lettuce"; "tomato"; "onion"; "potato";
    "milk"; "cheese"; "yogurt"; "butter"; "cream";
    "chicken"; "beef"; "pork"; "turkey";
    "fish"; "shrimp"; "salmon"; "tuna";
    "frozen"; "ice cream";
    "flour"; "sugar"; "oil"; "pasta"; "can"; "sauce";
    "bread"; "bagel"; "muffin"; "bakery";
    "juice"; "soda"; "water"; "coffee"; "tea";
    "chip"; "cookie"; "crackers"; "nuts";
    "spice"; "herb"; "salt"; "pepper"; "seasoning" ].

(** [Object.keys(groceryItems).forEach(c => { if (groceryItems[c].length
    === 0) delete groceryItems[c] })] *)
Definition removeEmptyCategories (groceryItems : GroceryItems) : GroceryItems :=
  foldl (fun g category =>
           match g !! category with
           | Some [] => delete category g
           | _ => g
           end)
        groceryItems (Object_keys groceryItems).

Definition buildUnifiedGroceryList (st : ScreenState) : result ScreenState :=
  let* groceryItems := collectGroceryItems categorizeFoodItem (notes st) in
  Ret {| notes := notes st;
         unifiedGroceryList := removeEmptyCategories groceryItems |}.

(** [toggleGroceryItemDone(category, index)]: guarded, a missing category
    or position leaves the list as it is. *)
Definition toggleGroceryItemDone (prev : GroceryItems) (category : string)
    (index : nat) : GroceryItems :=
  match prev !! category with
  | Some items =>
      match items !! index with
      | Some item => <[category := <[index := toggleItem item]> items]> prev
      | None => prev
      end
  | None => prev
  end.

End NotesScreenA.

(** Second revision of [NotesScreen] (the one that copies the non-empty
    categories into [filledCategories]). *)
Module NotesScreenB.

Definition categorizeFoodItem (item : string) : string :=
  let lowerItem := JS.toLowerCase item in
  if JS.includes lowerItem "milk" || JS.includes lowerItem "cheese" ||
     JS.includes lowerItem "yogurt" || JS.includes lowerItem "cream"
  then "dairy"
  else if JS.includes lowerItem "apple" || JS.includes lowerItem "banana" ||
          JS.includes lowerItem "vegetable" ||
          JS.includes lowerItem "lettuce" ||
          JS.includes lowerItem "tomato" || JS.includes lowerItem "onion"
  then "produce"
  else if JS.includes lowerItem "chicken" || JS.includes lowerItem "beef" ||
          JS.includes lowerItem "pork"
  then "meat"
  else if JS.includes lowerItem "fish" || JS.includes lowerItem "shrimp" ||
          JS.includes lowerItem "salmon"
  then "seafood"
  else if JS.includes lowerItem "ice" || JS.includes lowerItem "frozen"
  then "frozen"
  else if JS.includes lowerItem "bread" || JS.includes lowerItem "bagel" ||
          JS.includes lowerItem "muffin"
  then "bakery"
  else if JS.includes lowerItem "salt" || JS.includes lowerItem "pepper" ||
          JS.includes lowerItem "spice" || JS.includes lowerItem "herb"
  then "spices"
  else if JS.includes lowerItem "soda" || JS.includes lowerItem "juice" ||
          JS.includes lowerItem "water" || JS.includes lowerItem "drink"
  then "beverages"
  else if JS.includes lowerItem "chip" || JS.includes lowerItem "cookie" ||
          JS.includes lowerItem "cracker"
  then "snacks"
  else if JS.includes lowerItem "flour" || JS.includes lowerItem "sugar" ||
          JS.includes lowerItem "rice" || JS.includes lowerItem "pasta" ||
          JS.includes lowerItem "can"
  then "pantry"
  else "other".

(** Every keyword tested by [categorizeFoodItem], in test order. *)
Definition KEYWORDS : list string :=
  [ "milk"; "cheese"; "yogurt"; "cream";
    "apple"; "banana"; "vegetable"; "lettuce"; "tomato"; "onion";
    "chicken"; "beef"; "pork";
    "fish"; "shrimp"; "salmon";
    "ice"; "frozen";
    "bread"; "bagel"; "muffin";
    "salt"; "pepper"; "spice"; "herb";
    "soda"; "juice"; "water"; "drink";
    "chip"; "cookie"; "cracker";
    "flour"; "sugar"; "rice"; "pasta"; "can" ].

(** [Object.keys(groceryItems).forEach(c => { if (groceryItems[c].length
    > 0) filledCategories[c] = groceryItems[c] })] *)
Definition filledCategories (groceryItems : GroceryItems) : GroceryItems :=
  foldl (fun filled category =>
           match groceryItems !! category with
           | Some (i :: items) => <[category := i :: items]> filled
           | _ => filled
           end)
        ∅ (Object_keys groceryItems).

Definition buildUnifiedGroceryList (st : ScreenState) : result ScreenState :=
  let* groceryItems := collectGroceryItems categorizeFoodItem (notes st) in
  Ret {| notes := notes st;
         unifiedGroceryList := filledCategories groceryItems |}.

(** [toggleGroceryItemDone(category, index)]: not guarded, spreading a
    missing category throws and so does reading [done] of a missing item. *)
Definition toggleGroceryItemDone (prevList : GroceryItems) (category : string)
    (index : nat) : result GroceryItems :=
  match prevList !! category with
  | None => Throw (TypeError "undefined" "Symbol.iterator")
  | Some items =>
      match items !! index with
      | None => Throw (TypeError "undefined" "done")
      | Some item => Ret (<[category := <[index := toggleItem item]> items]> prevList)
      end
  end.

End NotesScreenB.

(** ** GroceryManager *)

Module GroceryManager.

(** [GroceryItem] of [GroceryList.tsx]. *)
Record GroceryItem : Type := {
  name : string;
  quantity : option string;
  gi_done : bool;
  gi_id : option string
}.

(** [GroceryCategories]: the six fixed keys, in declaration order. *)
Record GroceryCategories : Type := {
  produce : list GroceryItem;
  dairy : list GroceryItem;
  meat : list GroceryItem;
  bakery : list GroceryItem;
  pantry : list GroceryItem;
  other : list GroceryItem
}.

(** [keyof typeof groceryData.categories] *)
Inductive CategoryKey : Type :=
  Kproduce | Kdairy | Kmeat | Kbakery | Kpantry | Kother.

Global Instance CategoryKey_eq_dec : EqDecision CategoryKey.
Proof. solve_decision. Defined.

(** [Object.keys(updatedGroceryData.categories)] *)
Definition CATEGORY_KEYS : list CategoryKey :=
  [Kproduce; Kdairy; Kmeat; Kbakery; Kpantry; Kother].

(** [categories[key]] *)
Definition getCategory (key : CategoryKey) (c : GroceryCategories)
  : list GroceryItem :=
  match key with
  | Kproduce => produce c | Kdairy => dairy c | Kmeat => meat c
  | Kbakery => bakery c | Kpantry => pantry c | Kother => other c
  end.

(** [categories[key] = items] *)
Definition setCategory (key : CategoryKey) (items : list GroceryItem)
    (c : GroceryCategories) : GroceryCategories :=
  match key with
  | Kproduce => {| produce := items; dairy := dairy c; meat := meat c;
                   bakery := bakery c; pantry := pantry c; other := other c |}
  | Kdairy => {| produce := produce c; dairy := items; meat := meat c;
                 bakery := bakery c; pantry := pantry c; other := other c |}
  | Kmeat => {| produce := produce c; dairy := dairy c; meat := items;
                bakery := bakery c; pantry := pantry c; other := other c |}
  | Kbakery => {| produce := produce c; dairy := dairy c; meat := meat c;
                  bakery := items; pantry := pantry c; other := other c |}
  | Kpantry => {| produce := produce c; dairy := dairy c; meat := meat c;
                  bakery := bakery c; pantry := items; other := other c |}
  | Kother => {| produce := produce c; dairy := dairy c; meat := meat c;
                 bakery := bakery c; pantry := pantry c; other := items |}
  end.

(** An element of [categoryGroup.items]: [{name: string, quantity?: string}]. *)
Record IncomingItem : Type := {
  in_name : string;
  in_quantity : option string
}.

Record CategoryGroup : Type := {
  cg_category : string;
  cg_items : list IncomingItem
}.

(** The chain of tests that picks [targetCategory]. *)
Definition targetCategoryOf (groupCategory : string) : CategoryKey :=
  let category := JS.toLowerCase groupCategory in
  if JS.includes category "produce" || JS.includes category "vegetable" ||
     JS.includes category "fruit"
  then Kproduce
  else if JS.includes category "dairy" || JS.includes category "milk" ||
          JS.includes category "cheese"
  then Kdairy
  else if JS.includes category "meat" || JS.includes category "protein"
  then Kmeat
  else if JS.includes category "bakery" || JS.includes category "bread"
  then Kbakery
  else if JS.includes category "pantry" || JS.includes category "canned"
  then Kpantry
  else Kother.

(** [l.findIndex(p)]: the first index whose element satisfies [p],
    [-1] when there is none. *)
Fixpoint findIndex {A : Type} (p : A -> bool) (l : list A) : Z :=
  match l with
  | [] => (-1)%Z
  | x :: l' =>
      if p x then 0%Z
      else let i := findIndex p l' in
           if (0 <=? i)%Z then (i + 1)%Z else (-1)%Z
  end.

(** Truthiness of an optional string: defined and not empty. *)
Definition truthy (q : option string) : bool :=
  match q with
  | Some (String _ _) => true
  | _ => false
  end.

Definition sameName (item : IncomingItem) (existingItem : GroceryItem) : bool :=
  String.eqb (JS.toLowerCase (name existingItem)) (JS.toLowerCase (in_name item)).

(** [l[i].quantity = q] *)
Definition setQuantity (q : option string) (i : nat) (l : list GroceryItem)
  : list GroceryItem :=
  alter (fun it => {| name := name it; quantity := q;
                      gi_done := gi_done it; gi_id := gi_id it |}) i l.

(** One round of the inner [Object.keys(...).forEach(cat => ...)]: the pair
    is the categories object and the flag [itemExists]. *)
Definition checkCategory (item : IncomingItem)
    (acc : GroceryCategories * bool) (cat : CategoryKey)
  : GroceryCategories * bool :=
  let existingItemIndex := findIndex (sameName item) (getCategory cat acc.1) in
  if (0 <=? existingItemIndex)%Z then
    ((if truthy (in_quantity item)
      then setCategory cat
             (setQuantity (in_quantity item) (Z.to_nat existingItemIndex)
                          (getCategory cat acc.1)) acc.1
      else acc.1), true)
  else acc.

(** The body of [categoryGroup.items.forEach(item => ...)]. *)
Definition addItem (targetCategory : CategoryKey) (c : GroceryCategories)
    (item : IncomingItem) : GroceryCategories :=
  let '(c', itemExists) := foldl (checkCategory item) (c, false) CATEGORY_KEYS in
  if negb itemExists then
    setCategory targetCategory
      (getCategory targetCategory c' ++
         [ {| name := in_name item;
              quantity := Some (if truthy (in_quantity item)
                                then default "" (in_quantity item) else "");
              gi_done := false; gi_id := None |} ])
      c'
  else c'.

(** [addItemsFromVoiceOrNote(items)], as a function of the categories held
    by [groceryData]; the result is what is passed to [setGroceryData]. *)
Definition addItemsFromVoiceOrNote (categories : GroceryCategories)
    (items : list CategoryGroup) : GroceryCategories :=
  foldl (fun c categoryGroup =>
           foldl (addItem (targetCategoryOf (cg_category categoryGroup)))
                 c (cg_items categoryGroup))
        categories items.

Definition emptyCategories : GroceryCategories :=
  {| produce := []; dairy := []; meat := []; bakery := []; pantry := [];
     other := [] |}.

(** [Object.values(groceryData.categories)] *)
Definition categoryValues (c : GroceryCategories) : list (list GroceryItem) :=
  map (fun k => getCategory k c) CATEGORY_KEYS.

(** [Object.values(...).reduce((sum, category) => sum + category.length, 0)] *)
Definition totalItems (c : GroceryCategories) : nat :=
  foldl (fun sum category => sum + List.length category) 0 (categoryValues c).

(** [Object.values(...).reduce((sum, category) =>
    sum + category.filter(item => item.done).length, 0)] *)
Definition completedItems (c : GroceryCategories) : nat :=
  foldl (fun sum category =>
           sum + List.length (List.filter (fun item => gi_done item) category))
        0 (categoryValues c).

(** [item.done = !item.done] *)
Definition toggleDone (item : GroceryItem) : GroceryItem :=
  {| name := name item; quantity := quantity item;
     gi_done := negb (gi_done item); gi_id := gi_id item |}.

(** [handleToggleItem(category, index)]: reading [done] of a missing
    element throws. *)
Definition handleToggleItem (c : GroceryCategories) (category : CategoryKey)
    (index : nat) : result GroceryCategories :=
  match getCategory category c !! index with
  | None => Throw (TypeError "undefined" "done")
  | Some item =>
      Ret (setCategory category
             (<[index := toggleDone item]> (getCategory category c)) c)
  end.

(** [clearCompletedItems()] *)
Definition clearCompletedItems (c : GroceryCategories) : GroceryCategories :=
  foldl (fun c category =>
           setCategory category
             (List.filter (fun item => negb (gi_done item))
                          (getCategory category c)) c)
        c CATEGORY_KEYS.

(** The fields of the "add item" form. *)
Record NewItemForm : Type := {
  newItemName : string;
  newItemQuantity : string;
  newItemCategory : CategoryKey;
  modalVisible : bool
}.

(** [addNewItem()]: the categories, the form, and whether the "Please
    enter an item name" alert was shown. *)
Definition addNewItem (c : GroceryCategories) (form : NewItemForm)
  : GroceryCategories * NewItemForm * bool :=
  if String.eqb (JS.trim (newItemName form)) "" then (c, form, true)
  else
    (setCategory (newItemCategory form)
       (getCategory (newItemCategory form) c ++
          [ {| name := JS.trim (newItemName form);
               quantity := Some (JS.trim (newItemQuantity form));
               gi_done := false; gi_id := None |} ])
       c,
     {| newItemName := ""; newItemQuantity := "";
        newItemCategory := newItemCategory form; modalVisible := false |},
     false).

(** An entry of [instacartFormatItems]. *)
Record InstacartItem : Type := {
  ic_name : string;
  ic_quantity : string
}.

(** [Object.values(groceryData.categories).flat().filter(item => !item.done)
    .map(item => ({name: item.name, quantity: item.quantity || '1'}))] *)
Definition instacartFormatItems (c : GroceryCategories) : list InstacartItem :=
  map (fun item =>
         {| ic_name := name item;
            ic_quantity := if truthy (quantity item)
                           then default "" (quantity item) else "1" |})
      (List.filter (fun item => negb (gi_done item))
                   (concat (categoryValues c))).

End GroceryManager.

(** ** Loosely typed payloads *)

Local Set Warnings "-register-all".

(** A JavaScript number: [NaN], an infinity, or the finite value
    [mantissa * 2 ^ exponent]. *)
Inductive Number : Type :=
  | NaN
  | Infinity (negative : bool)
  | Finite (mantissa exponent : Z).

(** Values of type [any]: JSON-like trees, plus [undefined].  An object is
    the list of its own properties; reading a property finds the first
    binding of the key. *)
Inductive JSValue : Type :=
  | JSUndefined
  | JSNull
  | JSBool (b : bool)
  | JSNumber (n : Number)
  | JSString (s : string)
  | JSArray (elements : list JSValue)
  | JSObject (properties : list (string * JSValue)).

(** [Boolean(v)], the truthiness used by [!v], [&&], [||] and [if]. *)
Definition toBoolean (v : JSValue) : bool :=
  match v with
  | JSUndefined | JSNull => false
  | JSBool b => b
  | JSNumber NaN => false
  | JSNumber (Infinity _) => true
  | JSNumber (Finite m _) => negb (m =? 0)%Z
  | JSString s => negb (String.eqb s "")
  | JSArray _ | JSObject _ => true
  end.

(** [typeof v] *)
Definition typeof (v : JSValue) : string :=
  match v with
  | JSUndefined => "undefined"
  | JSNull | JSArray _ | JSObject _ => "object"
  | JSBool _ => "boolean"
  | JSNumber _ => "number"
  | JSString _ => "string"
  end.

(** [Array.isArray(v)] *)
Definition isArray (v : JSValue) : bool :=
  match v with
  | JSArray _ => true
  | _ => false
  end.

(** [v !== undefined] *)
Definition isDefined (v : JSValue) : bool :=
  match v with
  | JSUndefined => false
  | _ => true
  end.

Fixpoint lookupProperty (key : string) (properties : list (string * JSValue))
  : option JSValue :=
  match properties with
  | [] => None
  | (k, v) :: rest => if String.eqb k key then Some v else lookupProperty key rest
  end.

(** [key in v] for an object: the property is present, whatever its value. *)
Definition hasProperty (v : JSValue) (key : string) : bool :=
  match v with
  | JSObject properties => bool_decide (is_Some (lookupProperty key properties))
  | _ => false
  end.

Definition numberOfNat (n : nat) : Number := Finite (Z.of_nat n) 0.

(** [v.key] for a property name [key]: throws on [null] and [undefined];
    arrays and strings have a [length]; a missing property reads as
    [undefined]. *)
Definition get (v : JSValue) (key : string) : result JSValue :=
  match v with
  | JSUndefined => Throw (TypeError "undefined" key)
  | JSNull => Throw (TypeError "null" key)
  | JSObject properties => Ret (default JSUndefined (lookupProperty key properties))
  | JSArray elements =>
      Ret (if String.eqb key "length"
           then JSNumber (numberOfNat (List.length elements)) else JSUndefined)
  | JSString s =>
      Ret (if String.eqb key "length"
           then JSNumber (numberOfNat (String.length s)) else JSUndefined)
  | JSBool _ | JSNumber _ => Ret JSUndefined
  end.

(** [v[0]] *)
Definition getFirst (v : JSValue) : result JSValue :=
  match v with
  | JSUndefined => Throw (TypeError "undefined" "0")
  | JSNull => Throw (TypeError "null" "0")
  | JSObject properties => Ret (default JSUndefined (lookupProperty "0" properties))
  | JSArray elements => Ret (default JSUndefined (head elements))
  | JSString (String c _) => Ret (JSString (String c EmptyString))
  | JSString EmptyString | JSBool _ | JSNumber _ => Ret JSUndefined
  end.

(** [v.length > 0], for an array or a string [v]. *)
Definition lengthPositive (v : JSValue) : bool :=
  match v with
  | JSArray elements => (0 <? List.length elements)%nat
  | JSString s => (0 <? String.length s)%nat
  | _ => false
  end.

(** The elements of a value known to be an array. *)
Definition elementsOf (v : JSValue) : list JSValue :=
  match v with
  | JSArray elements => elements
  | _ => []
  end.

(** Short-circuit [&&] and [||] between conditions that may throw. *)
Definition andM (a b : result bool) : result bool :=
  let* x := a in if x then b else Ret false.
Definition orM (a b : result bool) : result bool :=
  let* x := a in if x then Ret true else b.

Infix "&&&" := andM (at level 40, left associativity).
Infix "|||" := orM (at level 50, left associativity).

(** The condition [v.key], i.e. the truthiness of the property. *)
Definition truthyProp (v : JSValue) (key : string) : result bool :=
  let* x := get v key in Ret (toBoolean x).

(** The condition [Array.isArray(v.key)]. *)
Definition arrayProp (v : JSValue) (key : string) : result bool :=
  let* x := get v key in Ret (isArray x).

(** The services of the JavaScript engine the code relies on.  They are
    kept abstract; [JSON.parse] rejects the empty text. *)
Class Engine : Type := {
  JSON_parse : string -> result JSValue;
  JSON_stringify : JSValue -> string;      (** [JSON.stringify(v, null, 2)] *)
  String_of : JSValue -> string;           (** [String(v)] *)
  message : JSError -> string;             (** [error.message] *)
  JSON_parse_empty : exists e, JSON_parse "" = Throw e
}.

(** ** TaskList *)

Module TaskList.

(** Which of the four renderings [TaskList] returns. *)
Inductive Layout : Type :=
  | EmptyTasks          (** "No tasks yet" *)
  | GroupedByNote       (** one block per note group, then "Other Tasks" *)
  | GroupedByCategory   (** one block per task category *)
  | FlatList.           (** the flat list of tasks *)

(** [tasks.some(task => task.category)] *)
Fixpoint someHasCategory (tasks : list JSValue) : result bool :=
  match tasks with
  | [] => Ret false
  | task :: rest => truthyProp task "category" ||| someHasCategory rest
  end.

(** The choice between the renderings; [tasks] and [noteGroups] are
    arrays as the props declare, [showCategories] defaults to [true]. *)
Definition TaskList (tasks : list JSValue) (noteGroups : option (list JSValue))
    (showCategories : option bool) : result Layout :=
  let showCategories := default true showCategories in
  match tasks with
  | [] => Ret EmptyTasks
  | _ :: _ =>
      if match noteGroups with
         | Some (_ :: _) => showCategories
         | _ => false
         end
      then Ret GroupedByNote
      else
        let* byCategory := Ret showCategories &&& someHasCategory tasks in
        if byCategory then Ret GroupedByCategory else Ret FlatList
  end.

(** [TaskGroup]; [taskIndices] holds integers. *)
Record TaskGroup : Type := {
  tg_title : string;
  tg_category : string;
  taskIndices : list Z
}.

(** [tasks[taskIndex]]: [undefined] unless the index is a position. *)
Definition taskAt {A : Type} (tasks : list A) (taskIndex : Z) : option A :=
  if (0 <=? taskIndex)%Z then tasks !! Z.to_nat taskIndex else None.

(** The task items of one group block: [group.taskIndices.map(...)] with
    the [null] entries ([if (!task) return null]) left out; each item
    toggles its [taskIndex].  [truthy] is the truthiness of a task. *)
Definition groupItems {A : Type} (truthy : A -> bool) (tasks : list A)
    (group : TaskGroup) : list Z :=
  List.filter (fun taskIndex =>
                 match taskAt tasks taskIndex with
                 | Some task => truthy task
                 | None => false
                 end)
              (taskIndices group).

(** [noteGroups.some(group => group.taskIndices.includes(index))] *)
Definition inSomeGroup (noteGroups : list TaskGroup) (index : nat) : bool :=
  existsb (fun group => existsb (Z.eqb (Z.of_nat index)) (taskIndices group))
          noteGroups.

(** The positions rendered under "Other Tasks"; the block is there only
    when there is such a position. *)
Definition otherTasks {A : Type} (tasks : list A) (noteGroups : list TaskGroup)
  : option (list nat) :=
  let others := List.filter (fun index => negb (inSomeGroup noteGroups index))
                            (seq 0 (List.length tasks)) in
  if (0 <? List.length others)%nat then Some others else None.

(** The grouped rendering: one block per note group, then "Other Tasks". *)
Record GroupedView : Type := {
  groupBlocks : list (string * list Z);
  otherBlock : option (list nat)
}.

Definition renderGrouped {A : Type} (truthy : A -> bool) (tasks : list A)
    (noteGroups : list TaskGroup) : GroupedView :=
  {| groupBlocks := map (fun group =>
                           (tg_title group, groupItems truthy tasks group))
                        noteGroups;
     otherBlock := otherTasks tasks noteGroups |}.

End TaskList.

(** ** ContentTypeDetector *)

Module ContentTypeDetector.

(** What the component renders: the child component with its props. *)
Inductive View : Type :=
  | NoContentView
      (** "No content to display" *)
  | NoteView (content : string) (title : JSValue)
  | TaskListView (tasks : list JSValue) (noteGroups : option (list JSValue))
                 (showCategories : option bool)
  | GroceryListView (data : JSValue)
  | RecipeView (recipe : JSValue)
  | UnknownView (title : string) (text : string)
  | ErrorView (errorMessage : string) (rawContent : string).

Section WithEngine.

Context `{Engine}.

(** [typeof content === 'string' ? JSON.parse(content) : content] *)
Definition parseContent (content : JSValue) : result JSValue :=
  match content with
  | JSString s => JSON_parse s
  | _ => Ret content
  end.

(** The optional [title] prop as a value. *)
Definition titleValue (title : option string) : JSValue :=
  match title with
  | Some t => JSString t
  | None => JSUndefined
  end.

(** CASE 1: task extraction format (has tasks array and intent). *)
Definition isTaskExtraction (parsedContent : JSValue) : result bool :=
  truthyProp parsedContent "tasks" &&& arrayProp parsedContent "tasks" &&&
  truthyProp parsedContent "intent".

(** CASE 2: categorized tasks format (has tasks and noteGroups). *)
Definition isCategorizedTasks (parsedContent : JSValue) : result bool :=
  truthyProp parsedContent "tasks" &&& arrayProp parsedContent "tasks" &&&
  truthyProp parsedContent "noteGroups" &&& arrayProp parsedContent "noteGroups".

(** CASE 3: grocery list format. *)
Definition isGroceryList (parsedContent : JSValue) : result bool :=
  truthyProp parsedContent "categories" &&&
  (let* categories := get parsedContent "categories" in
   Ret (String.eqb (typeof categories) "object")) &&&
  (let* categories := get parsedContent "categories" in
   truthyProp categories "produce" ||| truthyProp categories "dairy" |||
   truthyProp categories "pantry").

(** CASE 4: recipe format (has title, ingredients, instructions). *)
Definition isRecipeFormat (parsedContent : JSValue) : result bool :=
  truthyProp parsedContent "title" &&&
  truthyProp parsedContent "ingredients" &&&
  arrayProp parsedContent "ingredients" &&&
  truthyProp parsedContent "instructions" &&&
  arrayProp parsedContent "instructions".

(** CASE 5: simple task list (just an array of task objects). *)
Definition isSimpleTaskList (parsedContent : JSValue) : result bool :=
  Ret (isArray parsedContent) &&& Ret (lengthPositive parsedContent) &&&
  (let* first := getFirst parsedContent in
   let* text := get first "text" in Ret (isDefined text)) &&&
  (let* first := getFirst parsedContent in
   let* done := get first "done" in Ret (isDefined done)).

(** CASE 6: enhanced text content. *)
Definition isText (parsedContent : JSValue) : result bool :=
  Ret (String.eqb (typeof parsedContent) "string") &&&
  Ret (lengthPositive parsedContent).

(** CASE 7: an object with a string [content] field. *)
Definition hasContentField (parsedContent : JSValue) : result bool :=
  truthyProp parsedContent "content" &&&
  (let* content := get parsedContent "content" in
   Ret (String.eqb (typeof content) "string")).

Definition stringOf (v : JSValue) : string :=
  match v with
  | JSString s => s
  | _ => String_of v
  end.

(** [typeof v === 'object' ? JSON.stringify(v, null, 2) : String(v)] *)
Definition display (v : JSValue) : string :=
  if String.eqb (typeof v) "object" then JSON_stringify v else String_of v.

(** The body of the second [try] block. *)
Definition classify (content : JSValue) (title : option string)
  : result View :=
  let* parsedContent := parseContent content in
  let* case1 := isTaskExtraction parsedContent in
  if case1 then
    let* tasks := get parsedContent "tasks" in
    Ret (TaskListView (elementsOf tasks) None (Some false))
  else
  let* case2 := isCategorizedTasks parsedContent in
  if case2 then
    let* tasks := get parsedContent "tasks" in
    let* noteGroups := get parsedContent "noteGroups" in
    Ret (TaskListView (elementsOf tasks) (Some (elementsOf noteGroups)) None)
  else
  let* case3 := isGroceryList parsedContent in
  if case3 then Ret (GroceryListView parsedContent)
  else
  let* case4 := isRecipeFormat parsedContent in
  if case4 then Ret (RecipeView parsedContent)
  else
  let* case5 := isSimpleTaskList parsedContent in
  if case5 then Ret (TaskListView (elementsOf parsedContent) None None)
  else
  let* case6 := isText parsedContent in
  if case6 then Ret (NoteView (stringOf parsedContent) (titleValue title))
  else
  let* case7 := hasContentField parsedContent in
  if case7 then
    let* content' := get parsedContent "content" in
    let* title' := get parsedContent "title" in
    Ret (NoteView (stringOf content')
                  (if toBoolean title' then title' else titleValue title))
  else
    Ret (UnknownView
           (if toBoolean (titleValue title) then default "" title else "Content")
           (display parsedContent)).

(** The first [try] block: a string that is not JSON is a plain note. *)
Definition plainNote (content : JSValue) (title : option string)
  : option View :=
  match content with
  | JSString s =>
      match JSON_parse s with
      | Throw _ => Some (NoteView s (titleValue title))
      | Ret _ => None
      end
  | _ => None
  end.

(** The component. *)
Definition ContentTypeDetector (content : JSValue) (title : option string)
  : result View :=
  if negb (toBoolean content) then Ret NoContentView
  else
    match plainNote content title with
    | Some view => Ret view
    | None =>
        try_catch (classify content title)
                  (fun error => Ret (ErrorView (message error) (display content)))
    end.

End WithEngine.

End ContentTypeDetector.

(** ** The AI gateway *)

Module Gateway.

(** The system prompts; their wording plays no role here. *)
Inductive Prompt : Type :=
  | IntentPrompt        (** "... determine if it should be a new note ..." *)
  | TaskArrayPrompt     (** "Extract tasks from the following text ..." *)
  | CategorizePrompt    (** "... Extract tasks and categorize them ..." *)
  | GroceryPrompt.      (** "You are a grocery list organizer. ..." *)

Inductive ResponseFormat : Type :=
  | JsonObject
  | JsonSchema (schemaName : string).

Record ChatRequest : Type := {
  model : string;
  system : Prompt;
  user : string;
  response_format : ResponseFormat
}.

Section WithClient.

Context `{Engine}.

(** [await openai.chat.completions.create(request)]: the completion, or
    the exception of a rejected request. *)
Variable create : ChatRequest -> result JSValue.

(** [JSON.parse(completion.choices[0].message.content)] *)
Definition parseMessage (completion : JSValue) : result JSValue :=
  let* choices := get completion "choices" in
  let* choice := getFirst choices in
  let* msg := get choice "message" in
  let* content := get msg "content" in
  JSON_parse (match content with JSString s => s | _ => String_of content end).

(** [a || b] on values *)
Definition orElse (a b : JSValue) : JSValue := if toBoolean a then a else b.

Definition intentRequest (text : string) : ChatRequest :=
  {| model := "gpt-4o"; system := IntentPrompt; user := text;
     response_format := JsonObject |}.

Definition tasksRequest (text : string) : ChatRequest :=
  {| model := "gpt-4o"; system := TaskArrayPrompt; user := text;
     response_format := JsonObject |}.

Definition extractTasksDefault : JSValue :=
  JSObject [ ("tasks", JSArray []); ("intent", JSString "new");
             ("reason", JSString "Error processing text") ].

(** [extractTasksFromText] of [lib/ai.ts]. *)
Definition extractTasksFromText (text : string) : result JSValue :=
  try_catch
    (let* intentCompletion := create (intentRequest text) in
     let* intent := parseMessage intentCompletion in
     let* completion := create (tasksRequest text) in
     let* res := parseMessage completion in
     let* tasks := get res "tasks" in
     let* action := get intent "action" in
     let* reason := get intent "reason" in
     Ret (JSObject [ ("tasks", orElse tasks (JSArray []));
                     ("intent", action); ("reason", reason) ]))
    (fun error => Ret extractTasksDefault).

Definition categorizeRequest (text : string) : ChatRequest :=
  {| model := "gpt-4o"; system := CategorizePrompt; user := text;
     response_format := JsonObject |}.

Definition categorizeDefault : JSValue :=
  JSObject [ ("tasks", JSArray []); ("noteGroups", JSArray []);
             ("reasoning", JSString "Error processing text") ].

(** [categorizeTasksAndSuggestNotes] of [lib/ai.ts]. *)
Definition categorizeTasksAndSuggestNotes (text : string) : result JSValue :=
  try_catch
    (let* completion := create (categorizeRequest text) in
     let* res := parseMessage completion in
     let* tasks := get res "tasks" in
     let* noteGroups := get res "noteGroups" in
     let* reasoning := get res "reasoning" in
     Ret (JSObject [ ("tasks", orElse tasks (JSArray []));
                     ("noteGroups", orElse noteGroups (JSArray []));
                     ("reasoning", orElse reasoning (JSString "")) ]))
    (fun error => Ret categorizeDefault).

Definition groceryRequest (text : string) : ChatRequest :=
  {| model := "gpt-4o-mini-2024-07-18"; system := GroceryPrompt; user := text;
     response_format := JsonSchema "grocery_list" |}.

Definition groceryDefault : JSValue :=
  JSObject [ ("categories",
              JSObject [ ("produce", JSArray []); ("dairy", JSArray []);
                         ("meat", JSArray []); ("bakery", JSArray []);
                         ("pantry", JSArray []); ("other", JSArray []) ]) ].

(** [extractGroceryList], the structured-output revision of the gateway. *)
Definition extractGroceryList (text : string) : result JSValue :=
  try_catch
    (let* completion := create (groceryRequest text) in
     let* res := parseMessage completion in
     Ret res)
    (fun error => Ret groceryDefault).

End WithClient.

End Gateway.

(** ** API key checks *)

Module ApiKeys.

(** [s.substring(start, end)]: both bounds are clamped to the length and
    swapped when out of order. *)
Definition substring (s : string) (start stop : nat) : string :=
  let a := Nat.min start (String.length s) in
  let b := Nat.min stop (String.length s) in
  String.substring (Nat.min a b) (Nat.max a b - Nat.min a b) s.

(** [isValidApiKey(key)] *)
Definition isValidApiKey (key : string) : bool :=
  if String.eqb key "" then false
  else if (String.length key <? 10)%nat then false
  else if JS.includes key "YOUR_" || JS.includes key "REPLACE_ME" then false
  else true.

(** [maskApiKey(key)] *)
Definition maskApiKey (key : string) : string :=
  if String.eqb key "" then "Not set"
  else if (String.length key <=? 8)%nat then "********"
  else substring key 0 4 +:+ "..." +:+
       substring key (String.length key - 4) (String.length key).

End ApiKeys.

(** ** NoteScreen *)

Module NoteScreen.
Import ContentTypeDetector Gateway.

(** [{...v}]: the own enumerable properties of a value; those of an array
    or of a string are its positions. *)
Definition spread (v : JSValue) : list (string * JSValue) :=
  match v with
  | JSObject properties => properties
  | JSArray elements => imap (fun i x => (pretty i, x)) elements
  | JSString s =>
      imap (fun i c => (pretty i, JSString (String c EmptyString)))
           (list_ascii_of_string s)
  | _ => []
  end.

(** [{...properties, key: value}] for a property name [key]: a property
    that is there keeps its place, a new one comes last. *)
Fixpoint setProperty (key : string) (value : JSValue)
    (properties : list (string * JSValue)) : list (string * JSValue) :=
  match properties with
  | [] => [(key, value)]
  | (k, v) :: rest =>
      if String.eqb k key then (k, value) :: rest
      else (k, v) :: setProperty key value rest
  end.

(** The processing modes; the state holds one of them or [null]. *)
Inductive ProcessingType : Type :=
  | TasksMode       (** ['tasks'] *)
  | GroceryMode     (** ['grocery'] *)
  | EnhanceMode.    (** ['enhance'] *)

Section WithClient.

Context `{Engine}.

Variable create : ChatRequest -> result JSValue.

(** The request of [enhanceTranscribedText] for a text: the completion, or
    the exception of a rejected request. *)
Variable createEnhance : string -> result JSValue.

(** [enhanceTranscribedText] of [lib/ai.ts]. *)
Definition enhanceTranscribedText (text : string) : result JSValue :=
  try_catch
    (let* completion := createEnhance text in
     let* choices := get completion "choices" in
     let* choice := getFirst choices in
     let* msg := get choice "message" in
     let* content := get msg "content" in
     Ret (orElse content (JSString text)))
    (fun error => Ret (JSString text)).

(** [processText]: the [result] state after the call, given the one
    before it. *)
Definition processText (processingType : option ProcessingType)
    (input : string) (res : JSValue) : JSValue :=
  if String.eqb (JS.trim input) "" then res
  else
    match
      match processingType with
      | Some TasksMode => extractTasksFromText create input
      | Some GroceryMode => extractGroceryList create input
      | Some EnhanceMode => enhanceTranscribedText input
      | None => categorizeTasksAndSuggestNotes create input
      end
    with
    | Ret processedResult => processedResult
    | Throw error => res
    end.

(** [handleToggleTask]: the [result] state after the call. *)
Definition handleToggleTask (index : nat) (res : JSValue) : result JSValue :=
  let* guard := Ret (toBoolean res) &&& truthyProp res "tasks" &&&
                arrayProp res "tasks" in
  if guard then
    let* tasks := get res "tasks" in
    let updatedTasks := elementsOf tasks in
    let task := default JSUndefined (updatedTasks !! index) in
    let* done := get task "done" in
    let updated :=
      JSObject (setProperty "done" (JSBool (negb (toBoolean done)))
                            (spread task)) in
    Ret (JSObject (setProperty "tasks"
                               (JSArray (<[index := updated]> updatedTasks))
                               (spread res)))
  else Ret res.

(** The result container: the dispatcher on the [result] state, or the
    placeholder ([None]) while there is none. *)
Definition resultContainer (res : JSValue) (noteTitle : string)
  : option (result View) :=
  if toBoolean res then Some (ContentTypeDetector res (Some noteTitle))
  else None.

End WithClient.

End NoteScreen.

(** ** A small engine for closed examples *)

(** Its parser knows the three keyword literals and rejects every other
    text; its printers name the kind of value they are given.  The theorems
    below hold for every engine; this one only serves to evaluate examples. *)
Definition sample_parse (s : string) : result JSValue :=
  if String.eqb s "null" then Ret JSNull
  else if String.eqb s "true" then Ret (JSBool true)
  else if String.eqb s "false" then Ret (JSBool false)
  else Throw (SyntaxError s).

Definition sample_print (v : JSValue) : string :=
  match v with
  | JSString s => s
  | JSNull => "null"
  | JSBool true => "true"
  | JSBool false => "false"
  | _ => typeof v
  end.

Definition sample_message (e : JSError) : string :=
  match e with
  | TypeError target property => property
  | SyntaxError detail => detail
  | RejectedError detail => detail
  end.

Definition sample_parse_empty : exists e, sample_parse "" = Throw e :=
  ex_intro _ (SyntaxError "") eq_refl.

Definition sampleEngine : Engine :=
  {| JSON_parse := sample_parse;
     JSON_stringify := sample_print;
     String_of := sample_print;
     message := sample_message;
     JSON_parse_empty := sample_parse_empty |}.

(** ** Sample data *)

Definition sampleRecipe : Note :=
  {| note_id := "1"; note_title := "Pancakes"; note_category := "recipe";
     note_tasks := []; isRecipe := Some true;
     recipeDetails :=
       Some {| ingredients := ["Milk"]; instructions := ["Mix"; "Fry"];
               prepTime := Some "10 mins"; cookTime := None;
               servings := Some 4%Z |} |}.

Definition sampleShopping : Note :=
  {| note_id := "2"; note_title := "Saturday"; note_category := "Shopping";
     note_tasks := [ {| task_text := "milk"; task_done := true;
                        task_category := "shopping" |} ];
     isRecipe := None; recipeDetails := None |}.

Definition sampleState : ScreenState :=
  {| notes := [sampleRecipe; sampleShopping]; unifiedGroceryList := ∅ |}.

(** The same notes with a list left over from an earlier run. *)
Definition staleState : ScreenState :=
  {| notes := [sampleRecipe; sampleShopping];
     unifiedGroceryList :=
       {[ "snacks" := [ {| item_text := "chips"; item_done := false;
                           recipeSource := None |} ] ]} |}.

(** A shopping note that lists milk twice, once with a leading blank. *)
Definition spacedShopping : Note :=
  {| note_id := "3"; note_title := "Sunday"; note_category := "grocery";
     note_tasks := [ {| task_text := " milk"; task_done := false;
                        task_category := "grocery" |};
                     {| task_text := "milk"; task_done := false;
                        task_category := "grocery" |} ];
     isRecipe := None; recipeDetails := None |}.

Definition spacedState : ScreenState :=
  {| notes := [spacedShopping]; unifiedGroceryList := ∅ |}.

Definition spacedGroup : GroceryManager.CategoryGroup :=
  {| GroceryManager.cg_category := "Dairy";
     GroceryManager.cg_items :=
       [ {| GroceryManager.in_name := " milk";
            GroceryManager.in_quantity := Some "1" |};
         {| GroceryManager.in_name := "milk";
            GroceryManager.in_quantity := Some "2" |} ] |}.

(** A task-extraction payload whose [intent] is present but empty, and
    which also carries note groups. *)
Definition sampleTasks : list JSValue :=
  [ JSObject [ ("text", JSString "buy milk"); ("done", JSBool false) ] ].

Definition sampleGroups : list JSValue :=
  [ JSObject [ ("title", JSString "Errands"); ("category", JSString "shopping");
               ("taskIndices", JSArray [JSNumber (Finite 0 0)]) ] ].

Definition emptyIntentPayload : JSValue :=
  JSObject [ ("tasks", JSArray sampleTasks); ("intent", JSString "");
             ("noteGroups", JSArray sampleGroups) ].

(** The task-extraction payload of the scenario. *)
Definition taskExtractionPayload : JSValue :=
  JSObject [ ("tasks", JSArray sampleTasks); ("intent", JSString "new");
             ("reason", JSString "x") ].

Definition sampleGrocery : JSValue :=
  JSObject [ ("name", JSString "steak"); ("quantity", JSString "1");
             ("done", JSBool false) ].

(** Payloads whose [categories] object has a single key. *)
Definition onlyCategory (key : string) : JSValue :=
  JSObject [ ("categories", JSObject [ (key, JSArray [sampleGrocery]) ]) ].

(** The grocery payload of the scenario: all six keys, one apple. *)
Definition groceryScenario : JSValue :=
  JSObject
    [ ("categories",
       JSObject [ ("produce",
                   JSArray [ JSObject [ ("name", JSString "apple");
                                        ("quantity", JSString "1");
                                        ("done", JSBool false) ] ]);
                  ("dairy", JSArray []); ("meat", JSArray []);
                  ("bakery", JSArray []); ("pantry", JSArray []);
                  ("other", JSArray []) ]) ].

(** A client whose every request is rejected. *)
Definition offlineClient (request : Gateway.ChatRequest) : result JSValue :=
  Throw (RejectedError "Network request failed").

(** A group that names milk three times and eggs once. *)
Definition mixedCaseGroup : GroceryManager.CategoryGroup :=
  {| GroceryManager.cg_category := "Dairy & eggs";
     GroceryManager.cg_items :=
       [ {| GroceryManager.in_name := "Milk";
            GroceryManager.in_quantity := Some "1" |};
         {| GroceryManager.in_name := "MILK";
            GroceryManager.in_quantity := None |};
         {| GroceryManager.in_name := "Eggs";
            GroceryManager.in_quantity := Some "12" |};
         {| GroceryManager.in_name := "milk";
            GroceryManager.in_quantity := Some "2" |} ] |}.

(** A list with one open and one completed item. *)
Definition halfDoneCategories : GroceryManager.GroceryCategories :=
  {| GroceryManager.produce :=
       [ {| GroceryManager.name := "Apples"; GroceryManager.quantity := None;
            GroceryManager.gi_done := true; GroceryManager.gi_id := None |} ];
     GroceryManager.dairy :=
       [ {| GroceryManager.name := "Milk"; GroceryManager.quantity := Some "2";
            GroceryManager.gi_done := false; GroceryManager.gi_id := None |} ];
     GroceryManager.meat := []; GroceryManager.bakery := [];
     GroceryManager.pantry := []; GroceryManager.other := [] |}.

(** The "add item" form filled with a name that is already on that list. *)
Definition milkAgainForm : GroceryManager.NewItemForm :=
  {| GroceryManager.newItemName := "  milk ";
     GroceryManager.newItemQuantity := "";
     GroceryManager.newItemCategory := GroceryManager.Kother;
     GroceryManager.modalVisible := true |}.


(** Note groups that name the first task, twice, and two positions that
    do not exist. *)
Definition errandGroups : list TaskList.TaskGroup :=
  [ {| TaskList.tg_title := "Errands"; TaskList.tg_category := "shopping";
       TaskList.taskIndices := [0; 7]%Z |};
    {| TaskList.tg_title := "Home"; TaskList.tg_category := "home";
       TaskList.taskIndices := [(-1); 0]%Z |} ].

(** ** Predicates used in the statements *)

(** No keyword of the list occurs in the lower-cased item name. *)
Definition containsNoKeyword (keywords : list string) (item : string) : Prop :=
  forall k, k ∈ keywords -> JS.includes (JS.toLowerCase item) k = false.

(** One of the meat keywords the two revisions share occurs in the
    lower-cased item name. *)
Definition hasMeatKeyword (item : string) : bool :=
  JS.includes (JS.toLowerCase item) "chicken" ||
  JS.includes (JS.toLowerCase item) "beef" ||
  JS.includes (JS.toLowerCase item) "pork".

(** The key under which the builder compares items. *)
Definition lowerText (i : Item) : string := JS.toLowerCase (item_text i).

(** The invariant of the builder loop: every category of the enumeration is
    present, no category holds two items with the same lower-cased text, and
    every item sits in the category computed from its own text. *)
Definition wellFormed (categorizeFoodItem : string -> string)
    (g : GroceryItems) : Prop :=
  (forall c, c ∈ FOOD_CATEGORIES -> is_Some (g !! c)) /\
  (forall c items, g !! c = Some items ->
     NoDup (lowerText <$> items) /\
     Forall (fun i => categorizeFoodItem (item_text i) = c) items).

(** No category holds, at two different positions, items whose texts are
    equal up to case. *)
Definition noDuplicateTexts (g : GroceryItems) : Prop :=
  forall c (items : list Item) i j a b,
    g !! c = Some items -> items !! i = Some a -> items !! j = Some b ->
    JS.toLowerCase (item_text a) = JS.toLowerCase (item_text b) -> i = j.

(** Everything of a grocery item but its quantity. *)
Definition identityOf (it : GroceryManager.GroceryItem)
  : string * bool * option string :=
  (GroceryManager.name it, GroceryManager.gi_done it, GroceryManager.gi_id it).

(** Two category objects hold the same items in the same places, up to the
    quantities: nothing was appended, removed, renamed or toggled. *)
Definition sameButQuantity (c c' : GroceryManager.GroceryCategories) : Prop :=
  forall k, identityOf <$> GroceryManager.getCategory k c'
            = identityOf <$> GroceryManager.getCategory k c.

(** Some category holds an item with the name of [item], up to case. *)
Definition hasMatch (item : GroceryManager.IncomingItem)
    (c : GroceryManager.GroceryCategories) : bool :=
  existsb (fun k => existsb (GroceryManager.sameName item)
                            (GroceryManager.getCategory k c))
          GroceryManager.CATEGORY_KEYS.

(** The property [key] of an object is present with a truthy value. *)
Definition hasTruthy (properties : list (string * JSValue)) (key : string)
  : bool :=
  toBoolean (default JSUndefined (lookupProperty key properties)).

(** No two places of the grocery data hold names that are equal up to
    case. *)
Definition uniqueNames (c : GroceryManager.GroceryCategories) : Prop :=
  forall k1 k2 i1 i2 a b,
    GroceryManager.getCategory k1 c !! i1 = Some a ->
    GroceryManager.getCategory k2 c !! i2 = Some b ->
    JS.toLowerCase (GroceryManager.name a) = JS.toLowerCase (GroceryManager.name b) ->
    k1 = k2 /\ i1 = i2.

(** The number of items a call of [addItemsFromVoiceOrNote] is given. *)
Definition incomingCount (items : list GroceryManager.CategoryGroup) : nat :=
  List.length (concat (map GroceryManager.cg_items items)).

(** One step of a stable de-duplication on the lower-cased text: an item
    is kept when no kept item has its text up to case. *)
Definition keepFirst (kept : list Item) (item : Item) : list Item :=
  if existsb (fun i => String.eqb (lowerText i) (lowerText item)) kept
  then kept else kept ++ [item].

(** The first occurrence of every text, in order of appearance. *)
Definition firstOccurrences (l : list Item) : list Item := foldl keepFirst [] l.

(** The items whose own text falls in category [c]. *)
Definition ofCategory (categorizeFoodItem : string -> string) (c : string)
    (l : list Item) : list Item :=
  List.filter (fun i => String.eqb (categorizeFoodItem (item_text i)) c) l.

(** The object of the builder loop holds, under each category of the
    enumeration, the kept items of that category, and has no other key. *)
Definition holdsKept (categorizeFoodItem : string -> string)
    (g : GroceryItems) (kept : list Item) : Prop :=
  forall c, g !! c = if decide (c ∈ FOOD_CATEGORIES)
                     then Some (ofCategory categorizeFoodItem c kept) else None.

(** A unified list is made of the candidates and loses none: its keys are
    food categories, no key has an empty list, every listed item is a
    candidate filed under the category of its own text, and every candidate
    has an item with its text (up to case) under the category of its text. *)
Definition madeOf (categorizeFoodItem : string -> string)
    (cands : list Item) (out : GroceryItems) : Prop :=
  (forall c (items : list Item), out !! c = Some items ->
     c ∈ FOOD_CATEGORIES /\ items <> [] /\
     forall i, i ∈ items -> i ∈ cands /\ categorizeFoodItem (item_text i) = c) /\
  (forall x, x ∈ cands ->
     exists (items : list Item) i,
       out !! categorizeFoodItem (item_text x) = Some items /\
       i ∈ items /\ lowerText i = lowerText x).

(** Two notes that differ at most in the checked state of their tasks. *)
Definition sameButDone (n n' : Note) : Prop :=
  note_id n' = note_id n /\ note_title n' = note_title n /\
  note_category n' = note_category n /\ isRecipe n' = isRecipe n /\
  recipeDetails n' = recipeDetails n /\
  task_text <$> note_tasks n' = task_text <$> note_tasks n /\
  task_category <$> note_tasks n' = task_category <$> note_tasks n.

(** Two items with the same text. *)
Definition sameText (i i' : Item) : Prop := item_text i = item_text i'.

(** The texts of a unified list, category by category. *)
Definition textsOf (g : GroceryItems) (c : string) : option (list string) :=
  fmap (M := list) item_text <$> g !! c.

(** [v == null]: the value is [null] or [undefined]. *)
Definition isNullish (v : JSValue) : bool :=
  match v with
  | JSUndefined | JSNull => true
  | _ => false
  end.

(** The parsed payloads on which the classification throws: [null],
    [undefined], and arrays whose first element is [null] or [undefined]. *)
Definition unreadable (parsedContent : JSValue) : bool :=
  match parsedContent with
  | JSArray (first :: _) => isNullish first
  | _ => isNullish parsedContent
  end.

(** A category is listed only when it has items. *)
Definition nonEmpty {A : Type} (l : list A) : option (list A) :=
  match l with
  | [] => None
  | _ :: _ => Some l
  end.

(** * Properties of the food categorizer *)

(** Membership in a list of literals, by evaluation. *)
Ltac elem_of_literals := apply (bool_decide_unpack _); vm_compute; exact I.

(** Refutes membership of a literal in a list of other literals. *)
Ltac not_elem_of_literals H :=
  repeat (apply elem_of_cons in H as [H | H]; [discriminate H|]);
  by apply elem_of_nil in H.

(** Splits on every test of a chain of [if]s. *)
Ltac split_tests :=
  repeat match goal with
         | |- context [if ?c then _ else _] => destruct c eqn:?
         end.

Lemma categorizeFoodItemA_in item :
  NotesScreenA.categorizeFoodItem item ∈ FOOD_CATEGORIES.
Proof.
  unfold NotesScreenA.categorizeFoodItem, FOOD_CATEGORIES.
  cbv zeta. split_tests; elem_of_literals.
Qed.

Lemma categorizeFoodItemB_in item :
  NotesScreenB.categorizeFoodItem item ∈ FOOD_CATEGORIES.
Proof.
  unfold NotesScreenB.categorizeFoodItem, FOOD_CATEGORIES.
  cbv zeta. split_tests; elem_of_literals.
Qed.

(** The categorizers only look at the lower-cased name. *)
Lemma categorizeFoodItemA_lower s t :
  JS.toLowerCase s = JS.toLowerCase t ->
  NotesScreenA.categorizeFoodItem s = NotesScreenA.categorizeFoodItem t.
Proof. unfold NotesScreenA.categorizeFoodItem. by intros ->. Qed.

Lemma categorizeFoodItemB_lower s t :
  JS.toLowerCase s = JS.toLowerCase t ->
  NotesScreenB.categorizeFoodItem s = NotesScreenB.categorizeFoodItem t.
Proof. unfold NotesScreenB.categorizeFoodItem. by intros ->. Qed.

(** C2.  The food categorizer is a total function into the fixed category
    enumeration: for every item name, each revision of [categorizeFoodItem]
    returns one of the eleven tags of [FOOD_CATEGORIES], and when the
    lower-cased name contains none of the revision's keywords the tag is
    ["other"]. *)
Theorem categorizeFoodItem_total (item : string) :
  NotesScreenA.categorizeFoodItem item ∈ FOOD_CATEGORIES /\
  NotesScreenB.categorizeFoodItem item ∈ FOOD_CATEGORIES /\
  (containsNoKeyword NotesScreenA.KEYWORDS item ->
   NotesScreenA.categorizeFoodItem item = "other") /\
  (containsNoKeyword NotesScreenB.KEYWORDS item ->
   NotesScreenB.categorizeFoodItem item = "other").
Proof.
  split; [apply categorizeFoodItemA_in|].
  split; [apply categorizeFoodItemB_in|].
  split; intros Hno.
  - unfold NotesScreenA.categorizeFoodItem. cbv zeta.
    rewrite !(Hno _) by elem_of_literals. done.
  - unfold NotesScreenB.categorizeFoodItem. cbv zeta.
    rewrite !(Hno _) by elem_of_literals. done.
Qed.

Lemma categorizeFoodItem_total_witness :
  NotesScreenA.categorizeFoodItem "" = "other" /\
  NotesScreenB.categorizeFoodItem "#@! 42" = "other".
Proof.
  split.
  - apply (categorizeFoodItem_total "").
    intros k Hk.
    repeat (apply elem_of_cons in Hk as [-> | Hk]; [vm_compute; reflexivity|]).
    by apply elem_of_nil in Hk.
  - apply (categorizeFoodItem_total "#@! 42").
    intros k Hk.
    repeat (apply elem_of_cons in Hk as [-> | Hk]; [vm_compute; reflexivity|]).
    by apply elem_of_nil in Hk.
Defined.

(** Both revisions test the meat keywords before the frozen keywords. *)
Lemma meat_keyword_categories item :
  hasMeatKeyword item = true ->
  NotesScreenA.categorizeFoodItem item ∈ ["produce"; "dairy"; "meat"] /\
  NotesScreenB.categorizeFoodItem item ∈ ["dairy"; "produce"; "meat"].
Proof.
  unfold hasMeatKeyword, NotesScreenA.categorizeFoodItem,
    NotesScreenB.categorizeFoodItem.
  cbv zeta. intros Hmeat. split.
  - destruct (JS.includes _ "chicken") eqn:E1; [|
    destruct (JS.includes _ "beef") eqn:E2; [|
    destruct (JS.includes _ "pork") eqn:E3; [|done]]];
      rewrite ?orb_true_r; simpl; split_tests; elem_of_literals.
  - destruct (JS.includes _ "chicken") eqn:E1; [|
    destruct (JS.includes _ "beef") eqn:E2; [|
    destruct (JS.includes _ "pork") eqn:E3; [|done]]];
      rewrite ?orb_true_r; simpl; split_tests; elem_of_literals.
Qed.

(** C7 (as stated, refuted).  On ["frozen chicken"] the two revisions of
    [categorizeFoodItem] return the same tag, ["meat"]; neither returns
    ["frozen"]. *)
Lemma frozen_chicken_same_in_both :
  NotesScreenA.categorizeFoodItem "frozen chicken" = "meat" /\
  NotesScreenB.categorizeFoodItem "frozen chicken" = "meat" /\
  ~ (NotesScreenA.categorizeFoodItem "frozen chicken"
     <> NotesScreenB.categorizeFoodItem "frozen chicken").
Proof. split; [|split]; [reflexivity..|]. intros Hne. by apply Hne. Qed.

(** C7 (amended).  Both revisions of [categorizeFoodItem] test the meat
    keywords before the frozen keywords: an item whose lower-cased name
    contains "chicken", "beef" or "pork" is never tagged ["frozen"] by
    either revision, and ["frozen chicken"] is tagged ["meat"] by both.
    The revisions still differ as functions: they order the produce and
    dairy tests differently, so ["tomato cream"] is ["produce"] for the
    first and ["dairy"] for the second. *)
Theorem meat_before_frozen_in_both (item : string) :
  hasMeatKeyword item = true ->
  NotesScreenA.categorizeFoodItem item <> "frozen" /\
  NotesScreenB.categorizeFoodItem item <> "frozen" /\
  NotesScreenA.categorizeFoodItem "frozen chicken" = "meat" /\
  NotesScreenB.categorizeFoodItem "frozen chicken" = "meat" /\
  NotesScreenA.categorizeFoodItem "tomato cream" = "produce" /\
  NotesScreenB.categorizeFoodItem "tomato cream" = "dairy".
Proof.
  intros Hmeat.
  destruct (meat_keyword_categories item Hmeat) as [HA HB].
  split; [|split; [|repeat split; vm_compute; reflexivity]].
  - intros E. rewrite E in HA. not_elem_of_literals HA.
  - intros E. rewrite E in HB. not_elem_of_literals HB.
Qed.

Lemma meat_before_frozen_in_both_witness :
  NotesScreenA.categorizeFoodItem "Frozen Beef Patties" <> "frozen" /\
  NotesScreenB.categorizeFoodItem "Frozen Beef Patties" <> "frozen".
Proof.
  destruct (meat_before_frozen_in_both "Frozen Beef Patties") as (HA & HB & _).
  - reflexivity.
  - split; assumption.
Defined.

(** * Properties of the unified list builder *)

Section ForEach.

Context {A S : Type}.
Implicit Types (f : S -> A -> result S) (l : list A) (s : S).

Lemma forEach_app f l1 l2 s :
  forEach f (l1 ++ l2) s = let* s' := forEach f l1 s in forEach f l2 s'.
Proof.
  revert s. induction l1 as [|x l1 IH]; intros s; simpl; [done|].
  destruct (f s x) as [s'|e]; simpl; [apply IH|done].
Qed.

Lemma forEach_map {B : Type} (h : B -> A) f (l : list B) s :
  forEach (fun s x => f s (h x)) l s = forEach f (map h l) s.
Proof.
  revert s. induction l as [|x l IH]; intros s; simpl; [done|].
  destruct (f s (h x)); simpl; [apply IH|done].
Qed.

(** A step that keeps an invariant and never throws makes a loop that
    keeps it and never throws. *)
Lemma forEach_invariant (P : S -> Prop) f l s :
  (forall s x, P s -> exists s', f s x = Ret s' /\ P s') ->
  P s -> exists s', forEach f l s = Ret s' /\ P s'.
Proof.
  intros Hstep. revert s. induction l as [|x l IH]; intros s Hs; simpl.
  - by exists s.
  - destruct (Hstep s x Hs) as (s' & -> & Hs'). simpl. by apply IH.
Qed.

End ForEach.

Lemma initCategories_lookup c :
  initCategories !! c = if decide (c ∈ FOOD_CATEGORIES) then Some [] else None.
Proof.
  unfold initCategories.
  assert (forall l (g : GroceryItems),
    foldl (fun groceryItems category => <[category := []]> groceryItems) g l !! c
    = if decide (c ∈ l) then Some [] else g !! c) as Hgen.
  { induction l as [|a l IH]; intros g; cbn [foldl].
    - by rewrite decide_False by apply not_elem_of_nil.
    - rewrite IH. destruct (decide (c ∈ l)) as [Hl|Hl].
      + by rewrite decide_True by (by apply elem_of_cons; right).
      + destruct (decide (c = a)) as [->|Hne].
        * rewrite lookup_insert_eq.
          by rewrite decide_True by (by apply elem_of_cons; left).
        * rewrite lookup_insert_ne by done.
          rewrite decide_False; [done|].
          intros [?|?]%elem_of_cons; done. }
  rewrite Hgen. by rewrite lookup_empty.
Qed.

Lemma some_lowerText item items :
  existsb (fun i => String.eqb (JS.toLowerCase (item_text i))
                               (JS.toLowerCase (item_text item))) items = true
  <-> lowerText item ∈ lowerText <$> items.
Proof.
  rewrite existsb_exists, list_elem_of_fmap. split.
  - intros (i & Hi & Heq). apply String.eqb_eq in Heq.
    exists i. split; [done|]. by apply list_elem_of_In.
  - intros (i & Heq & Hi). exists i. split; [by apply list_elem_of_In|].
    by apply String.eqb_eq.
Qed.

Lemma Object_keys_elem (g : GroceryItems) c :
  c ∈ Object_keys g <-> is_Some (g !! c).
Proof.
  unfold Object_keys. rewrite list_elem_of_fmap. split.
  - intros ([k v] & -> & Hkv). apply elem_of_map_to_list in Hkv. by exists v.
  - intros [v Hv]. exists (c, v). split; [done|]. by apply elem_of_map_to_list.
Qed.

(** Both ways of dropping the empty categories keep exactly the non-empty
    ones. *)
Lemma removeEmptyCategories_lookup (g : GroceryItems) c :
  NotesScreenA.removeEmptyCategories g !! c
  = match g !! c with Some [] => None | o => o end.
Proof.
  unfold NotesScreenA.removeEmptyCategories.
  assert (forall l (g : GroceryItems),
    foldl (fun g category =>
             match g !! category with
             | Some [] => delete category g
             | _ => g
             end) g l !! c
    = match g !! c with
      | Some [] => if decide (c ∈ l) then None else Some []
      | o => o
      end) as Hgen.
  { clear g. induction l as [|a l IH]; intros g; cbn [foldl].
    - rewrite decide_False by apply not_elem_of_nil. by destruct (g !! c) as [[|]|].
    - rewrite IH. destruct (decide (c = a)) as [->|Hne].
      + destruct (g !! a) as [[|i items]|] eqn:Ha; rewrite ?Ha; try done.
        * rewrite lookup_delete_eq.
          by rewrite decide_True by (by apply elem_of_cons; left).
      + assert (match g !! a with Some [] => delete a g | _ => g end !! c = g !! c)
          as ->.
        { destruct (g !! a) as [[|]|]; try done. by rewrite lookup_delete_ne. }
        destruct (g !! c) as [[|]|]; try done.
        destruct (decide (c ∈ l)) as [Hl|Hl].
        * by rewrite decide_True by (by apply elem_of_cons; right).
        * rewrite decide_False; [done|]. intros [?|?]%elem_of_cons; done. }
  rewrite Hgen. destruct (g !! c) as [[|]|] eqn:Hc; try done.
  rewrite decide_True; [done|]. apply Object_keys_elem. by rewrite Hc.
Qed.

Lemma filledCategories_lookup (g : GroceryItems) c :
  NotesScreenB.filledCategories g !! c
  = match g !! c with Some [] => None | o => o end.
Proof.
  unfold NotesScreenB.filledCategories.
  assert (forall l (filled : GroceryItems),
    foldl (fun filled category =>
             match g !! category with
             | Some (i :: items) => <[category := i :: items]> filled
             | _ => filled
             end) filled l !! c
    = if decide (c ∈ l)
      then match g !! c with
           | Some (i :: items) => Some (i :: items)
           | _ => filled !! c
           end
      else filled !! c) as Hgen.
  { induction l as [|a l IH]; intros filled; cbn [foldl].
    - by rewrite decide_False by apply not_elem_of_nil.
    - rewrite IH. destruct (decide (c = a)) as [->|Hne].
      + rewrite (decide_True (P := a ∈ a :: l)) by (by apply elem_of_cons; left).
        destruct (g !! a) as [[|i items]|] eqn:Ha; try by destruct (decide _).
        rewrite lookup_insert_eq. by destruct (decide _).
      + assert (match g !! a with
                | Some (i :: items) => <[a := i :: items]> filled
                | _ => filled
                end !! c = filled !! c) as ->.
        { destruct (g !! a) as [[|]|]; try done. by rewrite lookup_insert_ne. }
        destruct (decide (c ∈ l)) as [Hl|Hl].
        * by rewrite decide_True by (by apply elem_of_cons; right).
        * rewrite decide_False; [done|]. intros [?|?]%elem_of_cons; done. }
  rewrite Hgen. rewrite lookup_empty.
  destruct (decide (c ∈ Object_keys g)) as [Hin|Hin].
  - by destruct (g !! c) as [[|]|].
  - destruct (g !! c) as [items|] eqn:Hc; [|done].
    exfalso. apply Hin, Object_keys_elem. by rewrite Hc.
Qed.

Lemma removeEmpty_filled (g : GroceryItems) :
  NotesScreenA.removeEmptyCategories g = NotesScreenB.filledCategories g.
Proof.
  apply map_eq. intros c.
  by rewrite removeEmptyCategories_lookup, filledCategories_lookup.
Qed.

Section BuilderLoop.

Variable categorizeFoodItem : string -> string.
Hypothesis categorize_in : forall s, categorizeFoodItem s ∈ FOOD_CATEGORIES.
Hypothesis categorize_lower :
  forall s t, JS.toLowerCase s = JS.toLowerCase t ->
              categorizeFoodItem s = categorizeFoodItem t.

Local Abbreviation wf := (wellFormed categorizeFoodItem).
Local Abbreviation add := (addIfAbsent categorizeFoodItem).

Lemma wellFormed_init : wf initCategories.
Proof.
  split.
  - intros c Hc. rewrite initCategories_lookup, decide_True by done. by eexists.
  - intros c items. rewrite initCategories_lookup.
    case_decide; intros [= <-]. split; [apply NoDup_nil_2|apply Forall_nil_2].
Qed.

(** The step of the loop never throws on a well-formed object, and keeps
    it well formed. *)
Lemma addIfAbsent_wellFormed g item :
  wf g -> exists g', add g item = Ret g' /\ wf g'.
Proof.
  intros [Hdom Hitems].
  destruct (Hdom _ (categorize_in (item_text item))) as [items Hl].
  unfold addIfAbsent. rewrite Hl.
  destruct (existsb _ items) eqn:Hsome.
  - by exists g.
  - eexists. split; [done|]. split.
    + intros c Hc. destruct (decide (c = categorizeFoodItem (item_text item)))
        as [->|Hne].
      * rewrite lookup_insert_eq. by eexists.
      * rewrite lookup_insert_ne by done. by apply Hdom.
    + intros c its. destruct (decide (c = categorizeFoodItem (item_text item)))
        as [->|Hne].
      * rewrite lookup_insert_eq. intros [= <-].
        destruct (Hitems _ _ Hl) as [Hnd Hcat]. split.
        -- rewrite fmap_app. apply NoDup_app. split; [done|]. split.
           ++ intros x Hx [->|Hnil%elem_of_nil]%elem_of_cons; [|done].
              apply some_lowerText in Hx. by rewrite Hx in Hsome.
           ++ apply NoDup_singleton.
        -- apply Forall_app. split; [done|]. by apply Forall_singleton.
      * rewrite lookup_insert_ne by done. apply Hitems.
Qed.

Lemma processNote_wellFormed g note :
  wf g -> exists g', processNote categorizeFoodItem g note = Ret g' /\ wf g'.
Proof.
  intros Hg. unfold processNote.
  assert (exists g1,
    match recipeIngredients note with
    | Some ingredients =>
        forEach (fun g ingredient => add g (ingredientItem note ingredient))
                ingredients g
    | None => Ret g
    end = Ret g1 /\ wf g1) as (g1 & -> & Hg1).
  { destruct (recipeIngredients note) as [ings|]; [|by exists g].
    apply (forEach_invariant wf); [|done].
    intros s x Hs. by apply addIfAbsent_wellFormed. }
  simpl. destruct (isGroceryNote note); [|by exists g1].
  apply (forEach_invariant wf); [|done].
  intros s x Hs. by apply addIfAbsent_wellFormed.
Qed.

Lemma collectGroceryItems_wellFormed notes :
  exists g, collectGroceryItems categorizeFoodItem notes = Ret g /\ wf g.
Proof.
  apply (forEach_invariant wf); [|apply wellFormed_init].
  intros s x Hs. by apply processNote_wellFormed.
Qed.

(** The nested loops walk over the candidate items in order. *)
Lemma processNote_candidates g note :
  processNote categorizeFoodItem g note
  = forEach add (noteCandidates note) g.
Proof.
  unfold processNote, noteCandidates. rewrite forEach_app.
  destruct (recipeIngredients note) as [ings|].
  - rewrite (forEach_map (ingredientItem note) add).
    destruct (forEach add _ g); simpl; [|done].
    destruct (isGroceryNote note); [|done].
    by rewrite (forEach_map taskItem add).
  - simpl. destruct (isGroceryNote note); [|done].
    by rewrite (forEach_map taskItem add).
Qed.

Lemma collectGroceryItems_candidates notes :
  collectGroceryItems categorizeFoodItem notes
  = forEach add (candidates notes) initCategories.
Proof.
  unfold collectGroceryItems, candidates.
  generalize initCategories.
  induction notes as [|note notes IH]; intros g; simpl; [done|].
  rewrite forEach_app, processNote_candidates.
  destruct (forEach add (noteCandidates note) g); simpl; [apply IH|done].
Qed.

(** In a well-formed object no two positions of a category hold
    case-insensitively equal texts. *)
Lemma wellFormed_no_duplicate g c (items : list Item) i j a b :
  wf g -> g !! c = Some items ->
  items !! i = Some a -> items !! j = Some b ->
  JS.toLowerCase (item_text a) = JS.toLowerCase (item_text b) -> i = j.
Proof.
  intros [_ Hitems] Hc Hi Hj Heq.
  destruct (Hitems _ _ Hc) as [Hnd _].
  apply (NoDup_lookup _ i j (lowerText a) Hnd).
  - by rewrite list_lookup_fmap, Hi.
  - rewrite list_lookup_fmap, Hj. simpl. unfold lowerText. by rewrite Heq.
Qed.

(** In a well-formed object, case-insensitively equal texts sit in the
    same category. *)
Lemma wellFormed_same_category g c1 c2 (items1 items2 : list Item) a b :
  wf g -> g !! c1 = Some items1 -> g !! c2 = Some items2 ->
  a ∈ items1 -> b ∈ items2 ->
  JS.toLowerCase (item_text a) = JS.toLowerCase (item_text b) -> c1 = c2.
Proof.
  intros [_ Hitems] H1 H2 Ha Hb Heq.
  destruct (Hitems _ _ H1) as [_ Hc1]. destruct (Hitems _ _ H2) as [_ Hc2].
  rewrite Forall_forall in Hc1, Hc2.
  rewrite <- (Hc1 a Ha), <- (Hc2 b Hb). by apply categorize_lower.
Qed.

(** A later occurrence of a case-insensitively equal text is ignored. *)
Lemma addIfAbsent_again g g1 a b :
  JS.toLowerCase (item_text a) = JS.toLowerCase (item_text b) ->
  add g a = Ret g1 -> add g1 b = Ret g1.
Proof.
  intros Heq. unfold addIfAbsent.
  rewrite <- (categorize_lower _ _ Heq), <- Heq.
  destruct (g !! categorizeFoodItem (item_text a)) as [items|] eqn:Hl; [|done].
  destruct (existsb _ items) eqn:Hsome.
  - intros [= <-]. by rewrite Hl, Hsome.
  - intros [= <-]. rewrite lookup_insert_eq.
    rewrite existsb_app. simpl. rewrite String.eqb_refl.
    by rewrite orb_true_r.
Qed.

(** Two candidates "Milk" and "milk", in this order, leave one item. *)
Lemma two_candidates g a b :
  JS.toLowerCase (item_text a) = JS.toLowerCase (item_text b) ->
  g !! categorizeFoodItem (item_text a) = Some [] ->
  forEach add [a; b] g = Ret (<[categorizeFoodItem (item_text a) := [a]]> g).
Proof.
  intros Heq Hl. cbn [forEach].
  assert (add g a = Ret (<[categorizeFoodItem (item_text a) := [a]]> g)) as Ha.
  { unfold addIfAbsent. by rewrite Hl. }
  rewrite Ha. simpl. by rewrite (addIfAbsent_again _ _ _ _ Heq Ha).
Qed.

End BuilderLoop.

Lemma nonEmpty_lookup_inv (g : GroceryItems) c (items : list Item) :
  match g !! c with Some [] => None | o => o end = Some items ->
  g !! c = Some items.
Proof. by destruct (g !! c) as [[|]|]. Qed.

Lemma buildA_total st :
  exists g, collectGroceryItems NotesScreenA.categorizeFoodItem (notes st) = Ret g /\
            wellFormed NotesScreenA.categorizeFoodItem g /\
            NotesScreenA.buildUnifiedGroceryList st
            = Ret {| notes := notes st;
                     unifiedGroceryList := NotesScreenA.removeEmptyCategories g |}.
Proof.
  destruct (collectGroceryItems_wellFormed _ categorizeFoodItemA_in (notes st))
    as (g & Hg & Hwf).
  exists g. split; [done|]. split; [done|].
  unfold NotesScreenA.buildUnifiedGroceryList. by rewrite Hg.
Qed.

Lemma buildB_total st :
  exists g, collectGroceryItems NotesScreenB.categorizeFoodItem (notes st) = Ret g /\
            wellFormed NotesScreenB.categorizeFoodItem g /\
            NotesScreenB.buildUnifiedGroceryList st
            = Ret {| notes := notes st;
                     unifiedGroceryList := NotesScreenB.filledCategories g |}.
Proof.
  destruct (collectGroceryItems_wellFormed _ categorizeFoodItemB_in (notes st))
    as (g & Hg & Hwf).
  exists g. split; [done|]. split; [done|].
  unfold NotesScreenB.buildUnifiedGroceryList. by rewrite Hg.
Qed.

(** Dropping the empty categories of the object left by two candidates that
    went to ["dairy"]. *)
Lemma only_dairy (a : Item) :
  NotesScreenA.removeEmptyCategories (<["dairy" := [a]]> initCategories)
  = {["dairy" := [a]]}.
Proof.
  apply map_eq. intros c. rewrite removeEmptyCategories_lookup.
  destruct (decide (c = "dairy")) as [->|Hne].
  - by rewrite lookup_insert_eq, lookup_singleton_eq.
  - rewrite lookup_insert_ne, lookup_singleton_ne by done.
    rewrite initCategories_lookup. by case_decide.
Qed.

(** C1.  For every notes collection both revisions of
    [buildUnifiedGroceryList] return a mapping in which no category holds
    two items with case-insensitively equal text; when the items met by the
    loop are "Milk" and then "milk" (whether they come from recipe
    ingredients or from tasks of grocery/shopping notes), the mapping is
    exactly one item, the first one, under ["dairy"]. *)
Theorem unified_list_no_duplicates (st : ScreenState) :
  exists outA outB,
    NotesScreenA.buildUnifiedGroceryList st = Ret outA /\
    NotesScreenB.buildUnifiedGroceryList st = Ret outB /\
    noDuplicateTexts (unifiedGroceryList outA) /\
    noDuplicateTexts (unifiedGroceryList outB) /\
    (item_text <$> candidates (notes st) = ["Milk"; "milk"] ->
     exists milk, item_text milk = "Milk" /\
       unifiedGroceryList outA = {["dairy" := [milk]]} /\
       unifiedGroceryList outB = {["dairy" := [milk]]}).
Proof.
  destruct (buildA_total st) as (gA & HgA & HwfA & HA).
  destruct (buildB_total st) as (gB & HgB & HwfB & HB).
  eexists _, _. split; [exact HA|]. split; [exact HB|]. cbn [unifiedGroceryList].
  split; [|split].
  - intros c items i j a b Hc. rewrite removeEmptyCategories_lookup in Hc.
    apply nonEmpty_lookup_inv in Hc.
    by apply (wellFormed_no_duplicate NotesScreenA.categorizeFoodItem gA c items).
  - intros c items i j a b Hc. rewrite filledCategories_lookup in Hc.
    apply nonEmpty_lookup_inv in Hc.
    by apply (wellFormed_no_duplicate NotesScreenB.categorizeFoodItem gB c items).
  - intros Hcand.
    destruct (candidates (notes st)) as [|a [|b [|? ?]]] eqn:Hc; try done.
    injection Hcand as Ha Hb. exists a. split; [done|].
    assert (JS.toLowerCase (item_text a) = JS.toLowerCase (item_text b)) as Heq
      by (by rewrite Ha, Hb).
    rewrite collectGroceryItems_candidates, Hc in HgA, HgB.
    rewrite (two_candidates _ categorizeFoodItemA_lower) in HgA;
      [|done|by rewrite Ha].
    rewrite (two_candidates _ categorizeFoodItemB_lower) in HgB;
      [|done|by rewrite Ha].
    rewrite Ha in HgA, HgB.
    injection HgA as <-. injection HgB as <-.
    rewrite <- removeEmpty_filled. split; apply only_dairy.
Qed.

Lemma unified_list_no_duplicates_witness :
  exists outA milk,
    NotesScreenA.buildUnifiedGroceryList sampleState = Ret outA /\
    item_text milk = "Milk" /\
    unifiedGroceryList outA = {["dairy" := [milk]]}.
Proof.
  destruct (unified_list_no_duplicates sampleState)
    as (outA & outB & HA & HB & _ & _ & Hmilk).
  destruct Hmilk as (milk & Htext & HoutA & _); [reflexivity|].
  exists outA, milk. split; [exact HA|]. split; [exact Htext|exact HoutA].
Defined.

(** C3.  [buildUnifiedGroceryList] reads nothing but the notes: two states
    with the same notes give the same result, whatever list an earlier run
    left behind, and running the builder again on its own output returns
    that output unchanged.  Both revisions. *)
Theorem builder_deterministic (st st' : ScreenState) :
  notes st = notes st' ->
  (exists out,
     NotesScreenA.buildUnifiedGroceryList st = Ret out /\
     NotesScreenA.buildUnifiedGroceryList st' = Ret out /\
     NotesScreenA.buildUnifiedGroceryList out = Ret out) /\
  (exists out,
     NotesScreenB.buildUnifiedGroceryList st = Ret out /\
     NotesScreenB.buildUnifiedGroceryList st' = Ret out /\
     NotesScreenB.buildUnifiedGroceryList out = Ret out).
Proof.
  intros Hnotes. split.
  - destruct (buildA_total st) as (g & Hg & _ & Hbuild).
    eexists. split; [exact Hbuild|].
    unfold NotesScreenA.buildUnifiedGroceryList.
    rewrite <- Hnotes. cbn [notes]. by rewrite Hg.
  - destruct (buildB_total st) as (g & Hg & _ & Hbuild).
    eexists. split; [exact Hbuild|].
    unfold NotesScreenB.buildUnifiedGroceryList.
    rewrite <- Hnotes. cbn [notes]. by rewrite Hg.
Qed.

Lemma builder_deterministic_witness :
  NotesScreenA.buildUnifiedGroceryList sampleState
  = NotesScreenA.buildUnifiedGroceryList staleState /\
  NotesScreenB.buildUnifiedGroceryList sampleState
  = NotesScreenB.buildUnifiedGroceryList staleState.
Proof.
  destruct (builder_deterministic sampleState staleState)
    as ((outA & HA & HA' & _) & (outB & HB & HB' & _)).
  - reflexivity.
  - split.
    + rewrite HA'. exact HA.
    + rewrite HB'. exact HB.
Defined.

(** C10.  In one output of [buildUnifiedGroceryList] (either revision) two
    items with case-insensitively equal text are never found under two
    different categories. *)
Theorem no_cross_category_duplicates (st out : ScreenState)
    (c1 c2 : string) (items1 items2 : list Item) (a b : Item) :
  NotesScreenA.buildUnifiedGroceryList st = Ret out \/
  NotesScreenB.buildUnifiedGroceryList st = Ret out ->
  unifiedGroceryList out !! c1 = Some items1 ->
  unifiedGroceryList out !! c2 = Some items2 ->
  a ∈ items1 -> b ∈ items2 ->
  JS.toLowerCase (item_text a) = JS.toLowerCase (item_text b) ->
  c1 = c2.
Proof.
  intros [Hout|Hout] H1 H2 Ha Hb Heq.
  - destruct (buildA_total st) as (g & _ & Hwf & Hbuild).
    rewrite Hbuild in Hout. injection Hout as <-. cbn in H1, H2.
    rewrite removeEmptyCategories_lookup in H1, H2.
    apply nonEmpty_lookup_inv in H1, H2.
    by apply (wellFormed_same_category NotesScreenA.categorizeFoodItem
                categorizeFoodItemA_lower g c1 c2 items1 items2 a b).
  - destruct (buildB_total st) as (g & _ & Hwf & Hbuild).
    rewrite Hbuild in Hout. injection Hout as <-. cbn in H1, H2.
    rewrite filledCategories_lookup in H1, H2.
    apply nonEmpty_lookup_inv in H1, H2.
    by apply (wellFormed_same_category NotesScreenB.categorizeFoodItem
                categorizeFoodItemB_lower g c1 c2 items1 items2 a b).
Qed.

Lemma no_cross_category_duplicates_witness :
  let milk := ingredientItem sampleRecipe "Milk" in
  let out := {| notes := notes sampleState;
                unifiedGroceryList := {["dairy" := [milk]]} |} in
  NotesScreenA.buildUnifiedGroceryList sampleState = Ret out /\
  "dairy" = "dairy".
Proof.
  intros milk out.
  assert (NotesScreenA.buildUnifiedGroceryList sampleState = Ret out) as Hout
    by (vm_compute; reflexivity).
  split; [exact Hout|].
  apply (no_cross_category_duplicates sampleState out "dairy" "dairy"
           [milk] [milk] milk milk).
  - left. exact Hout.
  - reflexivity.
  - reflexivity.
  - apply list_elem_of_here.
  - apply list_elem_of_here.
  - reflexivity.
Defined.

(** * Properties of GroceryManager *)

Module GroceryManagerFacts.
Import GroceryManager.

Lemma findIndex_found {A : Type} (p : A -> bool) (l : list A) :
  (0 <=? findIndex p l)%Z = existsb p l.
Proof.
  induction l as [|x l IH]; simpl; [done|].
  destruct (p x); simpl; [done|].
  rewrite <- IH. destruct (0 <=? findIndex p l)%Z eqn:E; [|done].
  apply Z.leb_le in E. apply Z.leb_le. lia.
Qed.

Lemma getCategory_setCategory k k' items c :
  getCategory k (setCategory k' items c)
  = if decide (k = k') then items else getCategory k c.
Proof. by destruct k, k'. Qed.

Lemma setQuantity_identity q i l :
  identityOf <$> setQuantity q i l = identityOf <$> l.
Proof.
  unfold setQuantity.
  revert i. induction l as [|x l IH]; intros [|i]; try done.
  csimpl. f_equal. apply IH.
Qed.

(** Whether a list holds a match depends on the names only. *)
Lemma match_identity item l l' :
  identityOf <$> l = identityOf <$> l' ->
  existsb (sameName item) l = existsb (sameName item) l'.
Proof.
  revert l'. induction l as [|x l IH]; intros [|x' l'] Heq; try done.
  rewrite !fmap_cons in Heq. apply (inj2 cons) in Heq as [Hx Hl].
  cbn [existsb]. rewrite (IH l' Hl). f_equal. unfold sameName.
  unfold identityOf in Hx. by injection Hx as -> _ _.
Qed.

Lemma sameButQuantity_refl c : sameButQuantity c c.
Proof. by intros k. Qed.

Lemma sameButQuantity_trans c1 c2 c3 :
  sameButQuantity c1 c2 -> sameButQuantity c2 c3 -> sameButQuantity c1 c3.
Proof. intros H12 H23 k. by rewrite H23, H12. Qed.

Lemma scan_sameButQuantity item keys c c' :
  sameButQuantity c c' ->
  existsb (fun k => existsb (sameName item) (getCategory k c')) keys
  = existsb (fun k => existsb (sameName item) (getCategory k c)) keys.
Proof.
  intros Hsame.
  induction keys as [|k keys IH]; cbn [existsb]; [done|].
  by rewrite IH, (match_identity item _ _ (Hsame k)).
Qed.

Lemma hasMatch_sameButQuantity item c c' :
  sameButQuantity c c' -> hasMatch item c' = hasMatch item c.
Proof. apply scan_sameButQuantity. Qed.

(** One round of the scan changes quantities only, and raises the flag
    exactly when the category holds a match. *)
Lemma checkCategory_spec item acc k :
  sameButQuantity acc.1 (checkCategory item acc k).1 /\
  (checkCategory item acc k).2
  = acc.2 || existsb (sameName item) (getCategory k acc.1).
Proof.
  unfold checkCategory. rewrite findIndex_found.
  destruct (existsb (sameName item) (getCategory k acc.1)) eqn:Hex.
  - split; [|by rewrite orb_true_r].
    destruct (truthy (in_quantity item)); [|apply sameButQuantity_refl].
    intros k'. simpl. rewrite getCategory_setCategory.
    case_decide as Hk; [subst k'|done]. apply setQuantity_identity.
  - split; [apply sameButQuantity_refl|by rewrite orb_false_r].
Qed.

Lemma scan_spec item keys c flag :
  sameButQuantity c (foldl (checkCategory item) (c, flag) keys).1 /\
  (foldl (checkCategory item) (c, flag) keys).2
  = flag || existsb (fun k => existsb (sameName item) (getCategory k c)) keys.
Proof.
  revert c flag. induction keys as [|k keys IH]; intros c flag; simpl.
  - split; [apply sameButQuantity_refl|by rewrite orb_false_r].
  - destruct (checkCategory_spec item (c, flag) k) as [Hsame Hflag].
    destruct (checkCategory item (c, flag) k) as [c' flag'] eqn:Hstep.
    simpl in Hsame, Hflag.
    destruct (IH c' flag') as [Hsame' Hflag']. split.
    + by apply (sameButQuantity_trans _ c').
    + rewrite Hflag', Hflag, <- orb_assoc.
      by rewrite (scan_sameButQuantity item keys c c' Hsame).
Qed.

Lemma hasMatch_lower x y c :
  JS.toLowerCase (in_name x) = JS.toLowerCase (in_name y) ->
  hasMatch x c = hasMatch y c.
Proof.
  intros Heq. unfold hasMatch.
  induction CATEGORY_KEYS as [|k keys IH]; cbn [existsb]; [done|].
  rewrite IH. f_equal.
  induction (getCategory k c) as [|e l IHl]; cbn [existsb]; [done|].
  rewrite IHl. unfold sameName. by rewrite Heq.
Qed.

(** An item that already has a match is not appended. *)
Lemma addItem_existing target c item :
  hasMatch item c = true -> sameButQuantity c (addItem target c item).
Proof.
  intros Hmatch. unfold addItem.
  destruct (scan_spec item CATEGORY_KEYS c false) as [Hsame Hflag].
  destruct (foldl (checkCategory item) (c, false) CATEGORY_KEYS) as [c' ex].
  cbn [fst snd orb] in Hsame, Hflag. unfold hasMatch in Hmatch.
  by rewrite Hflag, Hmatch.
Qed.

(** After an item went through [addItem], it has a match. *)
Lemma addItem_matches target c item :
  hasMatch item (addItem target c item) = true.
Proof.
  destruct (hasMatch item c) eqn:Hmatch.
  - by rewrite (hasMatch_sameButQuantity item c _ (addItem_existing _ _ _ Hmatch)).
  - unfold addItem.
    destruct (scan_spec item CATEGORY_KEYS c false) as [Hsame Hflag].
    destruct (foldl (checkCategory item) (c, false) CATEGORY_KEYS) as [c' ex].
    cbn [fst snd orb] in Hsame, Hflag. unfold hasMatch in Hmatch.
    rewrite Hflag, Hmatch. cbn [negb].
    unfold hasMatch. apply existsb_exists. exists target. split.
    + unfold CATEGORY_KEYS. destruct target; simpl; tauto.
    + rewrite getCategory_setCategory, decide_True by done.
      rewrite existsb_app. cbn [existsb]. unfold sameName at 2. cbn [name].
      rewrite String.eqb_refl. by rewrite orb_true_r.
Qed.

(** Without a quantity, an item that already has a match changes nothing. *)
Lemma scan_quiet item keys c flag :
  truthy (in_quantity item) = false ->
  foldl (checkCategory item) (c, flag) keys
  = (c, flag || existsb (fun k => existsb (sameName item) (getCategory k c)) keys).
Proof.
  intros Hq. revert flag.
  induction keys as [|k keys IH]; intros flag; cbn [foldl existsb].
  - by rewrite orb_false_r.
  - unfold checkCategory at 2. rewrite findIndex_found, Hq. cbn [fst snd].
    destruct (existsb (sameName item) (getCategory k c)).
    + rewrite IH. by rewrite orb_true_r.
    + by rewrite IH.
Qed.

Lemma addItem_quiet target c item :
  truthy (in_quantity item) = false -> hasMatch item c = true ->
  addItem target c item = c.
Proof.
  intros Hq Hmatch. unfold addItem. rewrite (scan_quiet _ _ _ _ Hq).
  unfold hasMatch in Hmatch. by rewrite Hmatch.
Qed.

End GroceryManagerFacts.

(** * De-duplication identity *)

(** C4 (as stated, refuted).  [" milk"] and ["milk"] are equal after
    trimming and lower-casing, yet the unified list builder and
    [addItemsFromVoiceOrNote] both keep them as two items. *)
Lemma trimmed_names_are_distinct_items :
  JS.toLowerCase (JS.trim " milk") = JS.toLowerCase (JS.trim "milk") /\
  (exists out,
     NotesScreenA.buildUnifiedGroceryList spacedState = Ret out /\
     item_text <$> default [] (unifiedGroceryList out !! "dairy")
     = [" milk"; "milk"]) /\
  GroceryManager.name <$>
    GroceryManager.dairy
      (GroceryManager.addItemsFromVoiceOrNote GroceryManager.emptyCategories
                                              [spacedGroup])
  = [" milk"; "milk"].
Proof.
  split; [reflexivity|]. split; [|reflexivity].
  eexists. split; [vm_compute; reflexivity|]. reflexivity.
Qed.

(** C4 (amended).  Item identity for de-duplication is the lower-cased
    name, without trimming.  For two names equal after lower-casing: in
    both revisions of the unified list builder, once the first went through
    the insertion step the second leaves the object unchanged; in
    [GroceryManager], once the first went through [addItem] the second is
    not appended to any category and changes at most quantities, and
    changes nothing at all when it carries no quantity. *)
Theorem dedup_identity_is_lowercase_name (n1 n2 : string) :
  JS.toLowerCase n1 = JS.toLowerCase n2 ->
  (forall g g1 a b,
     item_text a = n1 -> item_text b = n2 ->
     addIfAbsent NotesScreenA.categorizeFoodItem g a = Ret g1 ->
     addIfAbsent NotesScreenA.categorizeFoodItem g1 b = Ret g1) /\
  (forall g g1 a b,
     item_text a = n1 -> item_text b = n2 ->
     addIfAbsent NotesScreenB.categorizeFoodItem g a = Ret g1 ->
     addIfAbsent NotesScreenB.categorizeFoodItem g1 b = Ret g1) /\
  (forall c target1 target2 x y,
     GroceryManager.in_name x = n1 -> GroceryManager.in_name y = n2 ->
     let c1 := GroceryManager.addItem target1 c x in
     let c2 := GroceryManager.addItem target2 c1 y in
     sameButQuantity c1 c2 /\
     (GroceryManager.truthy (GroceryManager.in_quantity y) = false -> c2 = c1)).
Proof.
  intros Heq. split; [|split].
  - intros g g1 a b <- <-.
    by apply (addIfAbsent_again _ categorizeFoodItemA_lower).
  - intros g g1 a b <- <-.
    by apply (addIfAbsent_again _ categorizeFoodItemB_lower).
  - intros c target1 target2 x y Hx Hy c1 c2.
    assert (hasMatch y c1 = true) as Hmatch.
    { rewrite <- (GroceryManagerFacts.hasMatch_lower x y) by (by rewrite Hx, Hy).
      apply GroceryManagerFacts.addItem_matches. }
    split.
    + by apply GroceryManagerFacts.addItem_existing.
    + intros Hq. by apply GroceryManagerFacts.addItem_quiet.
Qed.

Lemma dedup_identity_is_lowercase_name_witness :
  let milk1 := {| GroceryManager.in_name := "Milk";
                  GroceryManager.in_quantity := Some "1" |} in
  let milk2 := {| GroceryManager.in_name := "MILK";
                  GroceryManager.in_quantity := Some "2" |} in
  let c1 := GroceryManager.addItem GroceryManager.Kdairy
              GroceryManager.emptyCategories milk1 in
  sameButQuantity c1 (GroceryManager.addItem GroceryManager.Kother c1 milk2).
Proof.
  intros milk1 milk2 c1.
  destruct (dedup_identity_is_lowercase_name "Milk" "MILK") as (_ & _ & HGM).
  - reflexivity.
  - destruct (HGM GroceryManager.emptyCategories GroceryManager.Kdairy
                GroceryManager.Kother milk1 milk2) as [Hsame _].
    + reflexivity.
    + reflexivity.
    + exact Hsame.
Defined.

(** * Properties of the content type dispatcher *)

Section Dispatcher.

Context `{Engine}.
Import ContentTypeDetector.

(** A payload that parses and whose [tasks] can be read is truthy. *)
Lemma readable_content_truthy content pc key v :
  parseContent content = Ret pc -> get pc key = Ret v -> isDefined v = true ->
  toBoolean content = true.
Proof.
  intros Hparse Hget Hdef.
  destruct content as [| |b|n|s| |]; try done;
    try (by cbn in Hparse; simplify_eq/=).
  destruct s; [|done]. cbn in Hparse.
  destruct JSON_parse_empty as [e He]. by rewrite He in Hparse.
Qed.

Lemma plainNote_parsed content title pc :
  parseContent content = Ret pc -> plainNote content title = None.
Proof.
  destruct content; simpl; try done. by intros ->.
Qed.

Lemma isTaskExtraction_spec pc ts v :
  get pc "tasks" = Ret (JSArray ts) -> get pc "intent" = Ret v ->
  isTaskExtraction pc = Ret (toBoolean v).
Proof.
  intros Ht Hi. unfold isTaskExtraction, truthyProp, arrayProp.
  by rewrite Ht, Hi.
Qed.

(** With [showCategories = false] the task list is never grouped. *)
Lemma TaskList_flat ts noteGroups :
  TaskList.TaskList ts noteGroups (Some false)
  = Ret (match ts with [] => TaskList.EmptyTasks | _ => TaskList.FlatList end).
Proof.
  unfold TaskList.TaskList. destruct ts; [done|].
  by destruct noteGroups as [[|]|].
Qed.

(** C5 (amended).  A payload, string or object, whose parsed form has a
    [tasks] array and a truthy [intent] (present and none of [""], [0],
    [NaN], [false], [null]) is dispatched to the task list with
    [showCategories = false], whatever else it contains, and that task
    list is rendered flat (or as the empty placeholder when there is no
    task), never grouped. *)
Theorem task_extraction_has_priority content title pc ts intent :
  parseContent content = Ret pc ->
  get pc "tasks" = Ret (JSArray ts) ->
  get pc "intent" = Ret intent ->
  toBoolean intent = true ->
  ContentTypeDetector content title = Ret (TaskListView ts None (Some false)) /\
  TaskList.TaskList ts None (Some false)
  = Ret (match ts with [] => TaskList.EmptyTasks | _ => TaskList.FlatList end).
Proof.
  intros Hparse Ht Hi Htruthy. split; [|apply TaskList_flat].
  unfold ContentTypeDetector.
  rewrite (readable_content_truthy _ _ _ _ Hparse Ht) by done.
  rewrite (plainNote_parsed _ _ _ Hparse). cbn [negb].
  unfold classify. rewrite Hparse. cbn [bind].
  rewrite (isTaskExtraction_spec _ _ _ Ht Hi), Htruthy. cbn [bind].
  by rewrite Ht.
Qed.

(** The dispatcher returns a view for every payload. *)
Lemma ContentTypeDetector_returns content title :
  exists view, ContentTypeDetector content title = Ret view.
Proof.
  unfold ContentTypeDetector.
  destruct (negb (toBoolean content)); [by eexists|].
  destruct (plainNote content title); [by eexists|].
  destruct (classify content title); by eexists.
Qed.

(** C8.  [ContentTypeDetector] returns a view for every payload and
    title, it never throws; and whenever the classification body throws
    (the payload being truthy and not a plain-text note), the view is the
    error view carrying the message of that exception and the raw
    payload, stringified if it is an object. *)
Theorem dispatcher_never_throws content title :
  (exists view, ContentTypeDetector content title = Ret view) /\
  (forall e,
     toBoolean content = true ->
     plainNote content title = None ->
     classify content title = Throw e ->
     ContentTypeDetector content title
     = Ret (ErrorView (message e) (display content))).
Proof.
  split; [apply ContentTypeDetector_returns|].
  intros e Htruthy Hplain Hthrow. unfold ContentTypeDetector.
  by rewrite Htruthy, Hplain, Hthrow.
Qed.

Lemma orM_Ret a b : Ret a ||| Ret b = Ret (a || b).
Proof. by destruct a. Qed.

Lemma isGroceryList_spec pc cats :
  get pc "categories" = Ret (JSObject cats) ->
  isGroceryList pc
  = Ret (hasTruthy cats "produce" || hasTruthy cats "dairy" ||
         hasTruthy cats "pantry").
Proof.
  intros Hget. unfold isGroceryList, truthyProp. rewrite Hget.
  cbn [bind toBoolean andM typeof String.eqb Ascii.eqb Bool.eqb get].
  by rewrite !orM_Ret.
Qed.

(** C6 (amended).  For a payload that matches neither of the two task
    rules and whose parsed form has a [categories] object, the dispatcher
    selects the grocery list exactly when that object has a truthy value
    under [produce], [dairy] or [pantry]; the keys [meat], [bakery] and
    [other] are not looked at. *)
Theorem grocery_shape_rule content title pc cats :
  parseContent content = Ret pc ->
  isTaskExtraction pc = Ret false ->
  isCategorizedTasks pc = Ret false ->
  get pc "categories" = Ret (JSObject cats) ->
  (ContentTypeDetector content title = Ret (GroceryListView pc) <->
   hasTruthy cats "produce" || hasTruthy cats "dairy" ||
   hasTruthy cats "pantry" = true).
Proof.
  intros Hparse Hcase1 Hcase2 Hcats.
  unfold ContentTypeDetector.
  rewrite (readable_content_truthy _ _ _ _ Hparse Hcats) by done.
  rewrite (plainNote_parsed _ _ _ Hparse). cbn [negb].
  unfold classify. rewrite Hparse. cbn [bind].
  rewrite Hcase1. cbn [bind]. rewrite Hcase2. cbn [bind].
  rewrite (isGroceryList_spec _ _ Hcats). cbn [bind].
  destruct (hasTruthy cats "produce" || hasTruthy cats "dairy" ||
            hasTruthy cats "pantry"); [done|].
  split; [|done]. intros Hview. exfalso. revert Hview.
  repeat (match goal with
          | |- context [bind ?m _] => destruct m as [[]|]
          | |- context [bind ?m _] => destruct m
          end; cbn [bind try_catch]); done.
Qed.

End Dispatcher.

Lemma task_extraction_has_priority_witness :
  @ContentTypeDetector.ContentTypeDetector sampleEngine taskExtractionPayload None
  = Ret (ContentTypeDetector.TaskListView sampleTasks None (Some false)) /\
  TaskList.TaskList sampleTasks None (Some false) = Ret TaskList.FlatList.
Proof.
  apply (task_extraction_has_priority (H := sampleEngine)
           taskExtractionPayload None taskExtractionPayload sampleTasks
           (JSString "new")); reflexivity.
Defined.

(** C5 (as stated, refuted).  A payload with a [tasks] array and an
    [intent] field that is present but empty is not dispatched by the first
    rule: here the second rule takes it and the tasks are rendered grouped. *)
Lemma present_but_empty_intent_is_grouped :
  hasProperty emptyIntentPayload "intent" = true /\
  get emptyIntentPayload "tasks" = Ret (JSArray sampleTasks) /\
  @ContentTypeDetector.ContentTypeDetector sampleEngine emptyIntentPayload None
  = Ret (ContentTypeDetector.TaskListView sampleTasks (Some sampleGroups) None) /\
  TaskList.TaskList sampleTasks (Some sampleGroups) None
  = Ret TaskList.GroupedByNote.
Proof. repeat split; vm_compute; reflexivity. Qed.

Lemma grocery_shape_rule_witness :
  @ContentTypeDetector.ContentTypeDetector sampleEngine groceryScenario None
  = Ret (ContentTypeDetector.GroceryListView groceryScenario) /\
  @ContentTypeDetector.ContentTypeDetector sampleEngine (onlyCategory "pantry") None
  = Ret (ContentTypeDetector.GroceryListView (onlyCategory "pantry")).
Proof.
  split.
  - eapply (grocery_shape_rule (H := sampleEngine) groceryScenario None
              groceryScenario); reflexivity.
  - eapply (grocery_shape_rule (H := sampleEngine) (onlyCategory "pantry") None
              (onlyCategory "pantry")); reflexivity.
Defined.

(** C6 (as stated, refuted).  Payloads whose [categories] object has only
    the key [meat], only [bakery] or only [other] hold a known grocery key
    and match no earlier rule, yet they are not dispatched to the grocery
    list: they end in the unknown view. *)
Lemma meat_bakery_other_are_not_grocery :
  Forall (fun key =>
            hasProperty (default JSUndefined
                           (lookupProperty "categories"
                              match onlyCategory key with
                              | JSObject properties => properties
                              | _ => []
                              end)) key = true /\
            @ContentTypeDetector.isTaskExtraction (onlyCategory key) = Ret false /\
            @ContentTypeDetector.isCategorizedTasks (onlyCategory key) = Ret false /\
            @ContentTypeDetector.ContentTypeDetector sampleEngine
              (onlyCategory key) None
            <> Ret (ContentTypeDetector.GroceryListView (onlyCategory key)) /\
            exists text,
              @ContentTypeDetector.ContentTypeDetector sampleEngine
                (onlyCategory key) None
              = Ret (ContentTypeDetector.UnknownView "Content" text))
         ["meat"; "bakery"; "other"].
Proof.
  repeat apply Forall_cons_2; [| | |apply Forall_nil_2];
    (split; [reflexivity|]; split; [reflexivity|]; split; [reflexivity|];
     split; [discriminate|]; by eexists).
Qed.

Lemma dispatcher_never_throws_witness :
  @ContentTypeDetector.ContentTypeDetector sampleEngine (JSString "null") None
  = Ret (ContentTypeDetector.ErrorView
           (sample_message (TypeError "null" "tasks")) "null").
Proof.
  destruct (dispatcher_never_throws (H := sampleEngine) (JSString "null") None)
    as [_ Herr].
  apply (Herr (TypeError "null" "tasks")); reflexivity.
Defined.

(** The remaining dispatcher scenarios: plain text is a note, an object
    with no recognised field is unknown, [null] has no content. *)
Example plain_text_is_a_note :
  @ContentTypeDetector.ContentTypeDetector sampleEngine
    (JSString "just some plain text") None
  = Ret (ContentTypeDetector.NoteView "just some plain text" JSUndefined).
Proof. reflexivity. Qed.

Example empty_object_is_unknown :
  exists text,
    @ContentTypeDetector.ContentTypeDetector sampleEngine (JSObject []) None
    = Ret (ContentTypeDetector.UnknownView "Content" text).
Proof. by eexists. Qed.

Example null_has_no_content :
  @ContentTypeDetector.ContentTypeDetector sampleEngine JSNull None
  = Ret ContentTypeDetector.NoContentView.
Proof. reflexivity. Qed.

(** * Properties of the AI gateway *)

Section GatewayFacts.

Context `{Engine}.
Variable create : Gateway.ChatRequest -> result JSValue.
Import Gateway.

Lemma try_catch_returns {A : Type} (body : result A) (fallback : A) :
  exists v, try_catch body (fun _ => Ret fallback) = Ret v.
Proof. destruct body; by eexists. Qed.

Lemma try_catch_throws {A : Type} (body : result A) (fallback : A) e :
  body = Throw e -> try_catch body (fun _ => Ret fallback) = Ret fallback.
Proof. by intros ->. Qed.

(** C9.  No gateway function ever raises, and when a request to the model
    fails each returns its fallback: [extractTasksFromText] the object
    with an empty [tasks] array and intent ["new"],
    [categorizeTasksAndSuggestNotes] the object with empty [tasks] and
    [noteGroups] arrays, [extractGroceryList] the object whose
    [categories] maps each of the six keys to an empty array. *)
Theorem gateway_safe_defaults (text : string) :
  ((exists v, extractTasksFromText create text = Ret v) /\
   (exists v, categorizeTasksAndSuggestNotes create text = Ret v) /\
   (exists v, extractGroceryList create text = Ret v)) /\
  (forall e,
     create (intentRequest text) = Throw e \/
     create (tasksRequest text) = Throw e ->
     extractTasksFromText create text
     = Ret (JSObject [ ("tasks", JSArray []); ("intent", JSString "new");
                       ("reason", JSString "Error processing text") ])) /\
  (forall e,
     create (categorizeRequest text) = Throw e ->
     categorizeTasksAndSuggestNotes create text
     = Ret (JSObject [ ("tasks", JSArray []); ("noteGroups", JSArray []);
                       ("reasoning", JSString "Error processing text") ])) /\
  (forall e,
     create (groceryRequest text) = Throw e ->
     exists categories,
       extractGroceryList create text
       = Ret (JSObject [ ("categories", JSObject categories) ]) /\
       Forall (fun key => lookupProperty key categories = Some (JSArray []))
              ["produce"; "dairy"; "meat"; "bakery"; "pantry"; "other"]).
Proof.
  split; [|split; [|split]].
  - split; [|split]; apply try_catch_returns.
  - intros e [Hfail|Hfail]; unfold extractTasksFromText.
    + by rewrite Hfail.
    + destruct (create (intentRequest text)) as [c1|]; [|done]. cbn [bind].
      destruct (parseMessage c1); [|done]. cbn [bind].
      by rewrite Hfail.
  - intros e Hfail. unfold categorizeTasksAndSuggestNotes. by rewrite Hfail.
  - intros e Hfail. unfold extractGroceryList. rewrite Hfail.
    eexists. split; [reflexivity|].
    repeat apply Forall_cons_2; by try apply Forall_nil_2.
Qed.

End GatewayFacts.

Lemma gateway_safe_defaults_witness :
  @Gateway.extractTasksFromText sampleEngine offlineClient "buy milk"
  = Ret Gateway.extractTasksDefault /\
  @Gateway.categorizeTasksAndSuggestNotes sampleEngine offlineClient "buy milk"
  = Ret Gateway.categorizeDefault /\
  exists categories,
    @Gateway.extractGroceryList sampleEngine offlineClient "buy milk"
    = Ret (JSObject [ ("categories", JSObject categories) ]) /\
    Forall (fun key => lookupProperty key categories = Some (JSArray []))
           ["produce"; "dairy"; "meat"; "bakery"; "pantry"; "other"].
Proof.
  destruct (gateway_safe_defaults (H := sampleEngine) offlineClient "buy milk")
    as (_ & Htasks & Hcat & Hgrocery).
  split; [|split].
  - apply (Htasks (RejectedError "Network request failed")). left. reflexivity.
  - apply (Hcat (RejectedError "Network request failed")). reflexivity.
  - apply (Hgrocery (RejectedError "Network request failed")). reflexivity.
Defined.

(** * Further properties of GroceryManager *)

Module GroceryManagerCounts.
Import GroceryManager GroceryManagerFacts.

Lemma totalItems_sum c :
  totalItems c
  = List.length (produce c) + List.length (dairy c) + List.length (meat c) +
    List.length (bakery c) + List.length (pantry c) + List.length (other c).
Proof. reflexivity. Qed.

Lemma completedItems_sum c :
  completedItems c
  = List.length (List.filter gi_done (produce c)) +
    List.length (List.filter gi_done (dairy c)) +
    List.length (List.filter gi_done (meat c)) +
    List.length (List.filter gi_done (bakery c)) +
    List.length (List.filter gi_done (pantry c)) +
    List.length (List.filter gi_done (other c)).
Proof. reflexivity. Qed.

Lemma identity_length (l l' : list GroceryItem) :
  identityOf <$> l' = identityOf <$> l -> List.length l' = List.length l.
Proof. intros Heq. by rewrite <- (length_fmap identityOf l'), Heq, length_fmap. Qed.

Lemma identity_completed (l l' : list GroceryItem) :
  identityOf <$> l' = identityOf <$> l ->
  List.length (List.filter gi_done l') = List.length (List.filter gi_done l).
Proof.
  revert l. induction l' as [|x' l' IH]; intros [|x l] Heq; try done.
  rewrite !fmap_cons in Heq. apply (inj2 cons) in Heq as [Hx Hl].
  cbn [List.filter]. unfold identityOf in Hx. injection Hx as _ Hdone _.
  rewrite Hdone. destruct (gi_done x); cbn [List.length]; by rewrite (IH l Hl).
Qed.

Lemma sameButQuantity_total c c' :
  sameButQuantity c c' -> totalItems c' = totalItems c.
Proof.
  intros Hsame. rewrite !totalItems_sum.
  pose proof (fun k => identity_length _ _ (Hsame k)) as Hlen.
  generalize (Hlen Kproduce), (Hlen Kdairy), (Hlen Kmeat), (Hlen Kbakery),
    (Hlen Kpantry), (Hlen Kother).
  cbn [getCategory]. lia.
Qed.

Lemma sameButQuantity_completed c c' :
  sameButQuantity c c' -> completedItems c' = completedItems c.
Proof.
  intros Hsame. rewrite !completedItems_sum.
  pose proof (fun k => identity_completed _ _ (Hsame k)) as Hlen.
  generalize (Hlen Kproduce), (Hlen Kdairy), (Hlen Kmeat), (Hlen Kbakery),
    (Hlen Kpantry), (Hlen Kother).
  cbn [getCategory]. lia.
Qed.

(** Appending one item to a category. *)
Lemma push_total target item c :
  totalItems (setCategory target (getCategory target c ++ [item]) c)
  = S (totalItems c).
Proof.
  rewrite !totalItems_sum. destruct target; cbn; rewrite length_app; cbn; lia.
Qed.

Lemma push_completed target item c :
  gi_done item = false ->
  completedItems (setCategory target (getCategory target c ++ [item]) c)
  = completedItems c.
Proof.
  intros Hdone. rewrite !completedItems_sum.
  destruct target; cbn; rewrite List.filter_app; cbn; rewrite Hdone;
    rewrite app_nil_r; lia.
Qed.

(** The two ways [addItem] can go. *)
Lemma addItem_cases target c item :
  (hasMatch item c = true /\ sameButQuantity c (addItem target c item)) \/
  (hasMatch item c = false /\
   exists c' pushed,
     sameButQuantity c c' /\
     name pushed = in_name item /\ gi_done pushed = false /\
     addItem target c item
     = setCategory target (getCategory target c' ++ [pushed]) c').
Proof.
  destruct (hasMatch item c) eqn:Hmatch.
  - left. split; [done|]. by apply addItem_existing.
  - right. split; [done|]. unfold addItem.
    destruct (scan_spec item CATEGORY_KEYS c false) as [Hsame Hflag].
    destruct (foldl (checkCategory item) (c, false) CATEGORY_KEYS) as [c' ex].
    cbn [fst snd orb] in Hsame, Hflag. unfold hasMatch in Hmatch.
    rewrite Hflag, Hmatch. cbn [negb].
    eexists c', _. split; [exact Hsame|]. split; [|split]; [| |reflexivity];
      reflexivity.
Qed.

(** A property kept by [addItem] is kept by [addItemsFromVoiceOrNote]. *)
Lemma addItems_preserves (P : GroceryCategories -> Prop) c items :
  (forall target c item, P c -> P (addItem target c item)) ->
  P c -> P (addItemsFromVoiceOrNote c items).
Proof.
  intros Hstep. unfold addItemsFromVoiceOrNote. revert c.
  induction items as [|group items IH]; intros c Hc; cbn [foldl]; [done|].
  apply IH. generalize (targetCategoryOf (cg_category group)). intros target.
  revert c Hc. induction (cg_items group) as [|item l IHl]; intros c Hc;
    cbn [foldl]; [done|].
  apply IHl. by apply Hstep.
Qed.

Lemma addItem_total target c item :
  totalItems c <= totalItems (addItem target c item) <= S (totalItems c).
Proof.
  destruct (addItem_cases target c item)
    as [[_ Hsame]|(_ & c' & pushed & Hsame & _ & _ & ->)].
  - rewrite (sameButQuantity_total _ _ Hsame). lia.
  - rewrite push_total, (sameButQuantity_total _ _ Hsame). lia.
Qed.

Lemma addItem_completed target c item :
  completedItems (addItem target c item) = completedItems c.
Proof.
  destruct (addItem_cases target c item)
    as [[_ Hsame]|(_ & c' & pushed & Hsame & _ & Hdone & ->)].
  - by apply sameButQuantity_completed.
  - rewrite push_completed by done. by apply sameButQuantity_completed.
Qed.

Lemma addItem_prefix target c item k :
  identityOf <$> getCategory k c
  `prefix_of` identityOf <$> getCategory k (addItem target c item).
Proof.
  destruct (addItem_cases target c item)
    as [[_ Hsame]|(_ & c' & pushed & Hsame & _ & _ & ->)].
  - by rewrite (Hsame k).
  - rewrite getCategory_setCategory. case_decide as Hk.
    + subst k. rewrite fmap_app, (Hsame target). by apply prefix_app_r.
    + by rewrite (Hsame k).
Qed.

(** X2.  [addItemsFromVoiceOrNote] only appends: in every category the
    items that were there stay where they were, with their names and
    their checked state; the number of completed items does not change;
    and the list grows by at most the number of items given. *)
Theorem addItems_only_appends (c : GroceryCategories)
    (items : list CategoryGroup) :
  (forall k,
     identityOf <$> getCategory k c
     `prefix_of` identityOf <$> getCategory k (addItemsFromVoiceOrNote c items)) /\
  completedItems (addItemsFromVoiceOrNote c items) = completedItems c /\
  totalItems c <= totalItems (addItemsFromVoiceOrNote c items)
               <= totalItems c + incomingCount items.
Proof.
  split; [|split].
  - intros k.
    apply (addItems_preserves
             (fun c' => identityOf <$> getCategory k c
                        `prefix_of` identityOf <$> getCategory k c')); [|done].
    intros target c' item Hc'. etrans; [exact Hc'|apply addItem_prefix].
  - apply (addItems_preserves (fun c' => completedItems c' = completedItems c));
      [|done].
    intros target c' item <-. apply addItem_completed.
  - unfold addItemsFromVoiceOrNote, incomingCount. revert c.
    induction items as [|group items IH]; intros c; cbn [foldl map concat].
    + cbn. lia.
    + rewrite length_app.
      assert (forall l target c,
        totalItems c <= totalItems (foldl (addItem target) c l)
                     <= totalItems c + List.length l) as Hinner.
      { clear. induction l as [|item l IHl]; intros target c; cbn [foldl].
        - cbn. lia.
        - specialize (IHl target (addItem target c item)).
          pose proof (addItem_total target c item). cbn [List.length]. lia. }
      specialize (Hinner (cg_items group) (targetCategoryOf (cg_category group)) c).
      specialize (IH (foldl (addItem (targetCategoryOf (cg_category group)))
                            c (cg_items group))).
      lia.
Qed.

Lemma sameButQuantity_unique c c' :
  sameButQuantity c c' -> uniqueNames c -> uniqueNames c'.
Proof.
  intros Hsame Huniq k1 k2 i1 i2 a b Ha Hb Heq.
  assert (forall k i x, getCategory k c' !! i = Some x ->
            exists y, getCategory k c !! i = Some y /\ name y = name x) as Hback.
  { intros k i x Hx.
    assert ((identityOf <$> getCategory k c) !! i = Some (identityOf x)) as Hid
      by (by rewrite <- (Hsame k), list_lookup_fmap, Hx).
    rewrite list_lookup_fmap in Hid.
    destruct (getCategory k c !! i) as [y|]; [|done].
    exists y. split; [done|]. cbn in Hid. unfold identityOf in Hid.
    by injection Hid as -> _ _. }
  destruct (Hback _ _ _ Ha) as (a0 & Ha0 & Hna).
  destruct (Hback _ _ _ Hb) as (b0 & Hb0 & Hnb).
  apply (Huniq k1 k2 i1 i2 a0 b0); try done. by rewrite Hna, Hnb.
Qed.

Lemma no_match_anywhere item c k i x :
  hasMatch item c = false -> getCategory k c !! i = Some x ->
  sameName item x = false.
Proof.
  intros Hno Hx. destruct (sameName item x) eqn:Hsame; [|done].
  assert (hasMatch item c = true) as Hyes; [|by rewrite Hyes in Hno].
  apply existsb_exists. exists k. split.
  - unfold CATEGORY_KEYS. destruct k; cbn; tauto.
  - apply existsb_exists. exists x. split; [|done].
    by apply list_elem_of_In, list_elem_of_lookup_2 with i.
Qed.

(** Where an item of a category with one pushed item comes from. *)
Lemma pushed_lookup target pushed c k i x :
  getCategory k (setCategory target (getCategory target c ++ [pushed]) c) !! i
  = Some x ->
  getCategory k c !! i = Some x \/
  (k = target /\ i = List.length (getCategory target c) /\ x = pushed).
Proof.
  rewrite getCategory_setCategory. case_decide as Hk; [subst k|by left].
  intros [Hold|[Hlen Hnew]]%lookup_app_Some; [by left|right].
  apply list_lookup_singleton_Some in Hnew as [Hi ->].
  split; [done|]. split; [lia|done].
Qed.

Lemma addItem_unique target c item :
  uniqueNames c -> uniqueNames (addItem target c item).
Proof.
  intros Huniq.
  destruct (addItem_cases target c item)
    as [[_ Hsame]|(Hno & c' & pushed & Hsame & Hname & _ & ->)].
  - by apply (sameButQuantity_unique c).
  - pose proof (sameButQuantity_unique _ _ Hsame Huniq) as Huniq'.
    rewrite <- (hasMatch_sameButQuantity item c c' Hsame) in Hno.
    intros k1 k2 i1 i2 a b Ha Hb Heq.
    apply pushed_lookup in Ha as [Ha|(-> & -> & ->)];
      apply pushed_lookup in Hb as [Hb|(-> & -> & ->)].
    + by apply (Huniq' k1 k2 i1 i2 a b).
    + pose proof (no_match_anywhere _ _ _ _ _ Hno Ha) as Hfalse.
      unfold sameName in Hfalse. rewrite Heq, Hname, String.eqb_refl in Hfalse.
      done.
    + pose proof (no_match_anywhere _ _ _ _ _ Hno Hb) as Hfalse.
      unfold sameName in Hfalse. rewrite <- Heq, Hname, String.eqb_refl in Hfalse.
      done.
    + done.
Qed.

(** X1.  [addItemsFromVoiceOrNote] keeps names unique: when no two items
    of the list, in whatever categories, have names equal up to case, this
    is still so afterwards. *)
Theorem addItems_keeps_names_unique (c : GroceryCategories)
    (items : list CategoryGroup) :
  uniqueNames c -> uniqueNames (addItemsFromVoiceOrNote c items).
Proof.
  intros Huniq. apply (addItems_preserves uniqueNames); [|done].
  intros target c' item. apply addItem_unique.
Qed.

Lemma addItems_keeps_names_unique_witness :
  uniqueNames (addItemsFromVoiceOrNote emptyCategories [mixedCaseGroup]).
Proof.
  apply (addItems_keeps_names_unique emptyCategories [mixedCaseGroup]).
  intros k1 k2 i1 i2 a b Ha. destruct k1; cbn in Ha; discriminate Ha.
Defined.

Lemma filter_split_length (l : list GroceryItem) :
  List.length (List.filter (fun item => negb (gi_done item)) l)
  + List.length (List.filter gi_done l) = List.length l.
Proof.
  induction l as [|x l IH]; cbn [List.filter]; [done|].
  destruct (gi_done x); cbn; lia.
Qed.

Lemma filter_open_completed (l : list GroceryItem) :
  List.filter gi_done (List.filter (fun item => negb (gi_done item)) l) = [].
Proof.
  induction l as [|x l IH]; cbn [List.filter]; [done|].
  destruct (gi_done x) eqn:Hx; cbn [negb List.filter]; [done|]. by rewrite Hx.
Qed.

Lemma filter_open_twice (l : list GroceryItem) :
  List.filter (fun item => negb (gi_done item))
              (List.filter (fun item => negb (gi_done item)) l)
  = List.filter (fun item => negb (gi_done item)) l.
Proof.
  induction l as [|x l IH]; cbn [List.filter]; [done|].
  destruct (gi_done x) eqn:Hx; cbn [negb List.filter]; [done|].
  rewrite Hx. cbn [negb]. by rewrite IH.
Qed.

Lemma clearCompletedItems_lookup c k :
  getCategory k (clearCompletedItems c)
  = List.filter (fun item => negb (gi_done item)) (getCategory k c).
Proof. by destruct c, k. Qed.

(** X3.  [clearCompletedItems] keeps, in every category and in order,
    exactly the items that are not done: afterwards no item is completed,
    the list is shorter by the number of completed items, and clearing a
    second time changes nothing. *)
Theorem clearCompletedItems_counts (c : GroceryCategories) :
  (forall k, getCategory k (clearCompletedItems c)
             = List.filter (fun item => negb (gi_done item)) (getCategory k c)) /\
  completedItems (clearCompletedItems c) = 0 /\
  totalItems (clearCompletedItems c) + completedItems c = totalItems c /\
  clearCompletedItems (clearCompletedItems c) = clearCompletedItems c.
Proof.
  split; [apply clearCompletedItems_lookup|].
  pose proof (clearCompletedItems_lookup c) as Hk.
  generalize (Hk Kproduce), (Hk Kdairy), (Hk Kmeat), (Hk Kbakery),
    (Hk Kpantry), (Hk Kother).
  cbn [getCategory]. intros H1 H2 H3 H4 H5 H6. split; [|split].
  - rewrite completedItems_sum, H1, H2, H3, H4, H5, H6.
    by rewrite !filter_open_completed.
  - rewrite !totalItems_sum, completedItems_sum, H1, H2, H3, H4, H5, H6.
    pose proof (filter_split_length (produce c)).
    pose proof (filter_split_length (dairy c)).
    pose proof (filter_split_length (meat c)).
    pose proof (filter_split_length (bakery c)).
    pose proof (filter_split_length (pantry c)).
    pose proof (filter_split_length (other c)). lia.
  - destruct c. cbn. by rewrite !filter_open_twice.
Qed.

Lemma toggleDone_twice item : toggleDone (toggleDone item) = item.
Proof. destruct item. unfold toggleDone. cbn. by rewrite negb_involutive. Qed.

Lemma setCategory_getCategory k c : setCategory k (getCategory k c) c = c.
Proof. by destruct c, k. Qed.

Lemma setCategory_twice k items items' c :
  setCategory k items (setCategory k items' c) = setCategory k items c.
Proof. by destruct k. Qed.

Lemma toggle_completed_list (l : list GroceryItem) i item :
  l !! i = Some item ->
  if gi_done item
  then S (List.length (List.filter gi_done (<[i := toggleDone item]> l)))
       = List.length (List.filter gi_done l)
  else List.length (List.filter gi_done (<[i := toggleDone item]> l))
       = S (List.length (List.filter gi_done l)).
Proof.
  revert i. induction l as [|x l IH]; intros [|i] Hi; try done.
  - injection Hi as ->. cbn [insert list_insert List.filter toggleDone gi_done].
    by destruct (gi_done item).
  - cbn in Hi. specialize (IH i Hi).
    change (<[S i := toggleDone item]> (x :: l))
      with (x :: <[i := toggleDone item]> l).
    cbn [List.filter].
    revert IH. destruct (gi_done item), (gi_done x); cbn [List.length]; lia.
Qed.

(** X4.  [handleToggleItem] at a position of the category flips that item
    and nothing else: the list keeps its length, the number of completed
    items moves by exactly one, and toggling the same position again gives
    the list back; at a position past the end it throws. *)
Theorem handleToggleItem_flips (c : GroceryCategories) (k : CategoryKey)
    (i : nat) :
  (forall item, getCategory k c !! i = Some item ->
     exists c',
       handleToggleItem c k i = Ret c' /\
       handleToggleItem c' k i = Ret c /\
       totalItems c' = totalItems c /\
       (if gi_done item then S (completedItems c') = completedItems c
        else completedItems c' = S (completedItems c))) /\
  (List.length (getCategory k c) <= i ->
   handleToggleItem c k i = Throw (TypeError "undefined" "done")).
Proof.
  split.
  - intros item Hi. unfold handleToggleItem at 1. rewrite Hi.
    eexists. split; [reflexivity|].
    assert (i < List.length (getCategory k c)) as Hlt
      by (by apply lookup_lt_Some with item).
    split; [|split].
    + unfold handleToggleItem. rewrite getCategory_setCategory, decide_True by done.
      rewrite list_lookup_insert_eq by done.
      rewrite list_insert_insert_eq, toggleDone_twice, setCategory_twice.
      rewrite list_insert_id by done. by rewrite setCategory_getCategory.
    + rewrite !totalItems_sum.
      destruct k; cbn; rewrite length_insert; lia.
    + pose proof (toggle_completed_list _ _ _ Hi) as Hcount.
      rewrite !completedItems_sum.
      destruct k; cbn in *; destruct (gi_done item); lia.
  - intros Hge. unfold handleToggleItem.
    by rewrite (lookup_ge_None_2 _ _ Hge).
Qed.

Lemma handleToggleItem_flips_witness :
  exists c',
    handleToggleItem halfDoneCategories Kdairy 0 = Ret c' /\
    handleToggleItem c' Kdairy 0 = Ret halfDoneCategories /\
    completedItems c' = 2 /\
    handleToggleItem halfDoneCategories Kdairy 1
    = Throw (TypeError "undefined" "done").
Proof.
  destruct (handleToggleItem_flips halfDoneCategories Kdairy 0) as [Hin _].
  destruct (Hin _ eq_refl) as (c' & Hc' & Hback & _ & Hdone).
  destruct (handleToggleItem_flips halfDoneCategories Kdairy 1) as [_ Hout].
  exists c'. split; [exact Hc'|]. split; [exact Hback|].
  split; [exact Hdone|]. apply Hout. cbn. lia.
Defined.

(** X5.  [addNewItem] refuses a name that is blank after trimming and
    leaves list and form as they are; otherwise it appends exactly one
    open item and touches nothing else, without looking for an item of
    that name: when the list already holds the name (up to case), names
    are no longer unique afterwards. *)
Theorem addNewItem_does_not_deduplicate (c : GroceryCategories)
    (form : NewItemForm) :
  (JS.trim (newItemName form) = "" -> addNewItem c form = (c, form, true)) /\
  (JS.trim (newItemName form) <> "" ->
   (addNewItem c form).2 = false /\
   totalItems (addNewItem c form).1.1 = S (totalItems c) /\
   completedItems (addNewItem c form).1.1 = completedItems c /\
   (forall k, getCategory k c `prefix_of` getCategory k (addNewItem c form).1.1) /\
   ((exists k i a,
       getCategory k c !! i = Some a /\
       JS.toLowerCase (name a) = JS.toLowerCase (JS.trim (newItemName form))) ->
    ~ uniqueNames (addNewItem c form).1.1)).
Proof.
  unfold addNewItem. split.
  - intros ->. by rewrite String.eqb_refl.
  - intros Hname. apply String.eqb_neq in Hname. rewrite Hname.
    cbn [fst snd]. split; [done|]. split; [apply push_total|].
    split; [by apply push_completed|]. split.
    + intros k. rewrite getCategory_setCategory. case_decide as Hk; [|done].
      subst k. by apply prefix_app_r.
    + intros (k & i & a & Ha & Heq) Huniq.
      set (target := newItemCategory form) in *.
      assert (i < List.length (getCategory k c)) as Hlt
        by (by apply lookup_lt_Some with a).
      destruct (Huniq k target i (List.length (getCategory target c)) a
                  {| name := JS.trim (newItemName form);
                     quantity := Some (JS.trim (newItemQuantity form));
                     gi_done := false; gi_id := None |}) as [-> Hi].
      * rewrite getCategory_setCategory. case_decide as Hk; [|done].
        subst k. by apply lookup_app_l_Some.
      * rewrite getCategory_setCategory, decide_True by done.
        rewrite lookup_app_r by done. by rewrite Nat.sub_diag.
      * done.
      * lia.
Qed.

Lemma addNewItem_does_not_deduplicate_witness :
  totalItems (addNewItem halfDoneCategories milkAgainForm).1.1 = 3 /\
  ~ uniqueNames (addNewItem halfDoneCategories milkAgainForm).1.1.
Proof.
  destruct (addNewItem_does_not_deduplicate halfDoneCategories milkAgainForm)
    as [_ Hadd].
  destruct Hadd as (_ & Htotal & _ & _ & Hdup); [discriminate|].
  split; [exact Htotal|]. apply Hdup.
  exists Kdairy, 0, {| name := "Milk"; quantity := Some "2";
                      gi_done := false; gi_id := None |}.
  split; reflexivity.
Defined.

Lemma concat_categoryValues c :
  concat (categoryValues c)
  = produce c ++ dairy c ++ meat c ++ bakery c ++ pantry c ++ other c.
Proof. cbn. by rewrite app_nil_r. Qed.

(** X6.  The list prepared for the Instacart export holds exactly the
    items that are not done (as many as the list has items minus the
    completed ones), none of them with an empty quantity; clearing the
    completed items first does not change it. *)
Theorem instacartFormatItems_open_items (c : GroceryCategories) :
  List.length (instacartFormatItems c) + completedItems c = totalItems c /\
  Forall (fun e => ic_quantity e <> "") (instacartFormatItems c) /\
  instacartFormatItems (clearCompletedItems c) = instacartFormatItems c.
Proof.
  unfold instacartFormatItems. split; [|split].
  - rewrite length_map, concat_categoryValues, !List.filter_app, !length_app.
    rewrite totalItems_sum, completedItems_sum.
    pose proof (filter_split_length (produce c)).
    pose proof (filter_split_length (dairy c)).
    pose proof (filter_split_length (meat c)).
    pose proof (filter_split_length (bakery c)).
    pose proof (filter_split_length (pantry c)).
    pose proof (filter_split_length (other c)). lia.
  - induction (List.filter _ _) as [|x l IH]; cbn [map]; constructor; [|done].
    cbn [ic_quantity]. by destruct (quantity x) as [[|? ?]|].
  - f_equal. rewrite !concat_categoryValues.
    pose proof (clearCompletedItems_lookup c) as Hk.
    generalize (Hk Kproduce), (Hk Kdairy), (Hk Kmeat), (Hk Kbakery),
      (Hk Kpantry), (Hk Kother).
    cbn [getCategory]. intros -> -> -> -> -> ->.
    by rewrite !List.filter_app, !filter_open_twice.
Qed.

End GroceryManagerCounts.

(** * What the unified list is made of *)

Section BuilderContents.

Variable categorizeFoodItem : string -> string.
Hypothesis categorize_in : forall s, categorizeFoodItem s ∈ FOOD_CATEGORIES.
Hypothesis categorize_lower :
  forall s t, JS.toLowerCase s = JS.toLowerCase t ->
              categorizeFoodItem s = categorizeFoodItem t.

Local Abbreviation add := (addIfAbsent categorizeFoodItem).
Local Abbreviation cat_of := (ofCategory categorizeFoodItem).

Local Abbreviation holds := (holdsKept categorizeFoodItem).

Lemma holds_init : holds initCategories [].
Proof. intros c. by rewrite initCategories_lookup. Qed.

(** Looking for a text in its own category or among all kept items is the
    same. *)
Lemma some_in_own_category item kept :
  existsb (fun i => String.eqb (JS.toLowerCase (item_text i))
                               (JS.toLowerCase (item_text item)))
          (cat_of (categorizeFoodItem (item_text item)) kept)
  = existsb (fun i => String.eqb (lowerText i) (lowerText item)) kept.
Proof.
  unfold ofCategory, lowerText.
  induction kept as [|x kept IH]; cbn [List.filter existsb]; [done|].
  destruct (String.eqb (JS.toLowerCase (item_text x))
                       (JS.toLowerCase (item_text item))) eqn:Hx.
  - apply String.eqb_eq in Hx.
    rewrite (categorize_lower _ _ Hx), String.eqb_refl. cbn [existsb].
    apply String.eqb_eq in Hx. by rewrite Hx.
  - cbn [orb].
    destruct (String.eqb (categorizeFoodItem (item_text x))
                         (categorizeFoodItem (item_text item)));
      cbn [existsb]; rewrite ?Hx; exact IH.
Qed.

Lemma addIfAbsent_holds g kept item :
  holds g kept -> exists g', add g item = Ret g' /\ holds g' (keepFirst kept item).
Proof.
  intros Hg. unfold addIfAbsent, keepFirst.
  rewrite (Hg (categorizeFoodItem (item_text item))), decide_True
    by apply categorize_in.
  rewrite some_in_own_category.
  destruct (existsb _ kept) eqn:Hsome; [by exists g|].
  eexists. split; [done|]. intros c.
  destruct (decide (c = categorizeFoodItem (item_text item))) as [->|Hne].
  - rewrite lookup_insert_eq, decide_True by apply categorize_in.
    unfold ofCategory. rewrite List.filter_app. cbn [List.filter].
    by rewrite String.eqb_refl.
  - rewrite lookup_insert_ne by done. rewrite (Hg c).
    unfold ofCategory. rewrite List.filter_app. cbn [List.filter].
    assert (String.eqb (categorizeFoodItem (item_text item)) c = false) as ->
      by (by apply String.eqb_neq).
    by rewrite app_nil_r.
Qed.

Lemma forEach_holds l g kept :
  holds g kept ->
  exists g', forEach add l g = Ret g' /\ holds g' (foldl keepFirst kept l).
Proof.
  revert g kept. induction l as [|x l IH]; intros g kept Hg; cbn [forEach foldl].
  - by exists g.
  - destruct (addIfAbsent_holds g kept x Hg) as (g1 & -> & Hg1). cbn [bind].
    by apply IH.
Qed.

Lemma collectGroceryItems_holds notes :
  exists g, collectGroceryItems categorizeFoodItem notes = Ret g /\
            holds g (firstOccurrences (candidates notes)).
Proof.
  rewrite collectGroceryItems_candidates. apply forEach_holds, holds_init.
Qed.

Lemma ofCategory_outside c l : c ∉ FOOD_CATEGORIES -> cat_of c l = [].
Proof.
  intros Hc. unfold ofCategory.
  induction l as [|x l IH]; cbn [List.filter]; [done|].
  destruct (String.eqb _ c) eqn:Hx; [|done].
  apply String.eqb_eq in Hx. destruct Hc. rewrite <- Hx. apply categorize_in.
Qed.

Lemma holds_nonEmpty g kept c :
  holds g kept ->
  match g !! c with Some [] => None | o => o end = nonEmpty (cat_of c kept).
Proof.
  intros Hg. rewrite (Hg c). case_decide as Hc.
  - by destruct (cat_of c kept).
  - by rewrite ofCategory_outside.
Qed.

End BuilderContents.

Lemma buildUnifiedGroceryList_lookup (st : ScreenState) :
  exists outA outB,
    NotesScreenA.buildUnifiedGroceryList st = Ret outA /\
    NotesScreenB.buildUnifiedGroceryList st = Ret outB /\
    (forall c, unifiedGroceryList outA !! c
               = nonEmpty (ofCategory NotesScreenA.categorizeFoodItem c
                             (firstOccurrences (candidates (notes st))))) /\
    (forall c, unifiedGroceryList outB !! c
               = nonEmpty (ofCategory NotesScreenB.categorizeFoodItem c
                             (firstOccurrences (candidates (notes st))))).
Proof.
  destruct (collectGroceryItems_holds _ categorizeFoodItemA_in
              categorizeFoodItemA_lower (notes st)) as (gA & HgA & HA).
  destruct (collectGroceryItems_holds _ categorizeFoodItemB_in
              categorizeFoodItemB_lower (notes st)) as (gB & HgB & HB).
  unfold NotesScreenA.buildUnifiedGroceryList,
    NotesScreenB.buildUnifiedGroceryList.
  rewrite HgA, HgB. cbn [bind]. eexists _, _.
  split; [done|]. split; [done|]. cbn [unifiedGroceryList]. split; intros c.
  - rewrite removeEmptyCategories_lookup.
    by apply (holds_nonEmpty _ categorizeFoodItemA_in).
  - rewrite filledCategories_lookup.
    by apply (holds_nonEmpty _ categorizeFoodItemB_in).
Qed.

(** X7.  What [buildUnifiedGroceryList] returns, in both revisions: under
    every category, the candidate items whose own text falls in that
    category, each text (up to case) represented by its first occurrence
    only, in the order the loop met them; a category without such an item
    is not a key. *)
Theorem builder_keeps_first_occurrences (st : ScreenState) :
  exists outA outB,
    NotesScreenA.buildUnifiedGroceryList st = Ret outA /\
    NotesScreenB.buildUnifiedGroceryList st = Ret outB /\
    (forall c, unifiedGroceryList outA !! c
               = nonEmpty (ofCategory NotesScreenA.categorizeFoodItem c
                             (firstOccurrences (candidates (notes st))))) /\
    (forall c, unifiedGroceryList outB !! c
               = nonEmpty (ofCategory NotesScreenB.categorizeFoodItem c
                             (firstOccurrences (candidates (notes st))))).
Proof. exact (buildUnifiedGroceryList_lookup st). Qed.

Lemma keepFirst_from kept l i :
  i ∈ foldl keepFirst kept l -> i ∈ kept \/ i ∈ l.
Proof.
  revert kept. induction l as [|x l IH]; intros kept Hi; cbn [foldl] in Hi.
  - by left.
  - destruct (IH _ Hi) as [Hk|Hl]; [|right; by apply elem_of_cons; right].
    unfold keepFirst in Hk. destruct (existsb _ kept); [by left|].
    apply elem_of_app in Hk as [Hk|Hx]; [by left|right].
    apply list_elem_of_singleton in Hx as ->. by apply elem_of_cons; left.
Qed.

Lemma keepFirst_keeps kept l i :
  i ∈ kept -> i ∈ foldl keepFirst kept l.
Proof.
  revert kept. induction l as [|x l IH]; intros kept Hi; cbn [foldl]; [done|].
  apply IH. unfold keepFirst. destruct (existsb _ kept); [done|].
  by apply elem_of_app; left.
Qed.

Lemma keepFirst_represents kept l x :
  x ∈ l -> exists i, i ∈ foldl keepFirst kept l /\ lowerText i = lowerText x.
Proof.
  revert kept. induction l as [|y l IH]; intros kept Hx.
  - by apply elem_of_nil in Hx.
  - apply elem_of_cons in Hx as [->|Hx]; [|by apply IH].
    cbn [foldl]. unfold keepFirst at 2.
    destruct (existsb _ kept) eqn:Hsome.
    + apply existsb_exists in Hsome as (i & Hi & Heq).
      apply String.eqb_eq in Heq. exists i. split; [|done].
      by apply keepFirst_keeps, list_elem_of_In.
    + exists y. split; [|done]. apply keepFirst_keeps.
      apply elem_of_app; right. by apply list_elem_of_singleton.
Qed.

Lemma ofCategory_elem categorize c l i :
  i ∈ ofCategory categorize c l <-> i ∈ l /\ categorize (item_text i) = c.
Proof.
  unfold ofCategory.
  rewrite !list_elem_of_In, List.filter_In, String.eqb_eq. done.
Qed.

Lemma nonEmpty_Some {A : Type} (l items : list A) :
  nonEmpty l = Some items -> items = l /\ l <> [].
Proof. destruct l; [done|]. by intros [= <-]. Qed.

Lemma first_occurrences_madeOf categorize cands (out : GroceryItems) :
  (forall s, categorize s ∈ FOOD_CATEGORIES) ->
  (forall s t, JS.toLowerCase s = JS.toLowerCase t -> categorize s = categorize t) ->
  (forall c, out !! c
             = nonEmpty (ofCategory categorize c (firstOccurrences cands))) ->
  madeOf categorize cands out.
Proof.
  intros Hin Hlower Hout. split.
  - intros c items Hc. rewrite Hout in Hc.
    apply nonEmpty_Some in Hc as [-> Hne]. split; [|split; [done|]].
    + destruct (ofCategory categorize c (firstOccurrences cands)) as [|i l] eqn:Hl;
        [done|].
      assert (i ∈ ofCategory categorize c (firstOccurrences cands)) as Hi
        by (rewrite Hl; apply list_elem_of_here).
      apply ofCategory_elem in Hi as [_ <-]. apply Hin.
    + intros i [Hi Hcat]%ofCategory_elem. split; [|done].
      destruct (keepFirst_from [] cands i Hi) as [Hnil|Hcand]; [|done].
      by apply elem_of_nil in Hnil.
  - intros x Hx.
    destruct (keepFirst_represents [] cands x Hx) as (i & Hi & Heq).
    assert (i ∈ ofCategory categorize (categorize (item_text x))
                  (firstOccurrences cands)) as Hin'.
    { apply ofCategory_elem. split; [done|]. by apply Hlower. }
    exists (ofCategory categorize (categorize (item_text x))
              (firstOccurrences cands)), i.
    split; [|done]. rewrite Hout.
    destruct (ofCategory _ _ _) eqn:Hl; [by apply elem_of_nil in Hin'|done].
Qed.

(** X8.  The unified list loses nothing and invents nothing, in both
    revisions: its keys are food categories, no key has an empty list,
    every listed item is one of the candidate items and sits under the
    category of its own text, and every candidate has an item with its
    text (up to case) under the category of its text. *)
Theorem builder_loses_nothing (st : ScreenState) :
  exists outA outB,
    NotesScreenA.buildUnifiedGroceryList st = Ret outA /\
    NotesScreenB.buildUnifiedGroceryList st = Ret outB /\
    madeOf NotesScreenA.categorizeFoodItem (candidates (notes st))
           (unifiedGroceryList outA) /\
    madeOf NotesScreenB.categorizeFoodItem (candidates (notes st))
           (unifiedGroceryList outB).
Proof.
  destruct (buildUnifiedGroceryList_lookup st)
    as (outA & outB & HA & HB & HlookA & HlookB).
  exists outA, outB. split; [done|]. split; [done|]. split.
  - by apply first_occurrences_madeOf;
      [apply categorizeFoodItemA_in|apply categorizeFoodItemA_lower|].
  - by apply first_occurrences_madeOf;
      [apply categorizeFoodItemB_in|apply categorizeFoodItemB_lower|].
Qed.

(** X9.  The two revisions drop the empty categories differently, one by
    deleting keys in place, the other by copying the non-empty ones into a
    fresh object; on every object both leave the same mapping, the one that
    keeps exactly the keys with a non-empty list. *)
Theorem dropping_empty_categories_agree (g : GroceryItems) :
  NotesScreenA.removeEmptyCategories g = NotesScreenB.filledCategories g /\
  (forall c, NotesScreenA.removeEmptyCategories g !! c = g !! c ≫= nonEmpty).
Proof.
  split.
  - apply map_eq. intros c.
    by rewrite removeEmptyCategories_lookup, filledCategories_lookup.
  - intros c. rewrite removeEmptyCategories_lookup.
    by destruct (g !! c) as [[|? ?]|].
Qed.

(** * Toggling *)

Lemma toggleTask_twice task : toggleTask (toggleTask task) = task.
Proof. destruct task. unfold toggleTask. cbn. by rewrite negb_involutive. Qed.

Lemma toggleTaskOfNote_flips noteId i note note' :
  toggleTaskOfNote noteId i note = Ret note' ->
  toggleTaskOfNote noteId i note' = Ret note /\ sameButDone note note'.
Proof.
  unfold toggleTaskOfNote.
  destruct (String.eqb (note_id note) noteId) eqn:Hid.
  - destruct (note_tasks note !! i) as [task|] eqn:Hi; [|done].
    intros [= <-]. cbn [note_id note_tasks]. rewrite Hid.
    assert (i < List.length (note_tasks note)) as Hlt
      by (by apply lookup_lt_Some with task).
    rewrite list_lookup_insert_eq by done. split.
    + cbn [note_id note_title note_category note_tasks isRecipe recipeDetails].
      rewrite list_insert_insert_eq, toggleTask_twice.
      rewrite list_insert_id by done. by destruct note.
    + repeat (split; [done|]). cbn [note_tasks].
      rewrite !list_fmap_insert. cbn [toggleTask task_text task_category].
      split; apply list_insert_id; by rewrite list_lookup_fmap, Hi.
  - intros [= <-]. rewrite Hid. split; [done|]. by repeat split.
Qed.


Lemma toggleTaskDone_returns notes noteId i notes' :
  toggleTaskDone notes noteId i = Ret notes' ->
  toggleTaskDone notes' noteId i = Ret notes /\ Forall2 sameButDone notes notes'.
Proof.
  unfold toggleTaskDone. revert notes'.
  induction notes as [|note notes IH]; intros notes'.
  - intros [= <-]. by split.
  - cbn [mapM].
    destruct (toggleTaskOfNote noteId i note) as [note'|] eqn:Hnote; [|done].
    cbn [bind].
    destruct (mapM (toggleTaskOfNote noteId i) notes) as [rest|] eqn:Hrest;
      [|done].
    cbn [bind]. intros [= <-].
    destruct (toggleTaskOfNote_flips _ _ _ _ Hnote) as [Hback Hsame].
    destruct (IH rest eq_refl) as [Hback' Hsame'].
    cbn [mapM]. rewrite Hback. cbn [bind]. rewrite Hback'. cbn [bind].
    split; [done|]. by constructor.
Qed.



Section SameTexts.

Variable categorizeFoodItem : string -> string.

Lemma sameText_fmap l l' :
  Forall2 sameText l l' <-> item_text <$> l = item_text <$> l'.
Proof.
  split.
  - induction 1 as [|x y l l' Hxy _ IH]; [done|]. rewrite !fmap_cons.
    unfold sameText in Hxy. by rewrite Hxy, IH.
  - revert l'. induction l as [|x l IH]; intros [|y l'] Heq; try done.
    rewrite !fmap_cons in Heq. apply (inj2 cons) in Heq as [Hx Hl].
    constructor; [done|]. by apply IH.
Qed.

Lemma some_sameText kept kept' x x' :
  Forall2 sameText kept kept' -> sameText x x' ->
  existsb (fun i => String.eqb (lowerText i) (lowerText x)) kept
  = existsb (fun i => String.eqb (lowerText i) (lowerText x')) kept'.
Proof.
  unfold sameText, lowerText. intros Hk Hx. rewrite Hx.
  induction Hk as [|y y' kept kept' Hy _ IH]; cbn [existsb]; [done|].
  unfold sameText in Hy. by rewrite Hy, IH.
Qed.

Lemma keepFirst_sameText kept kept' x x' :
  Forall2 sameText kept kept' -> sameText x x' ->
  Forall2 sameText (keepFirst kept x) (keepFirst kept' x').
Proof.
  intros Hk Hx. unfold keepFirst. rewrite (some_sameText _ _ _ _ Hk Hx).
  destruct (existsb _ kept'); [done|].
  apply Forall2_app; [done|]. by constructor.
Qed.

Lemma firstOccurrences_sameText l l' :
  Forall2 sameText l l' ->
  Forall2 sameText (firstOccurrences l) (firstOccurrences l').
Proof.
  unfold firstOccurrences. intros Hl.
  assert (Forall2 sameText (@nil Item) []) as Hnil by constructor.
  revert Hnil. generalize (@nil Item) at 1 3. generalize (@nil Item).
  induction Hl as [|x x' l l' Hx _ IH]; intros kept' kept Hk; cbn [foldl];
    [done|].
  apply IH. by apply keepFirst_sameText.
Qed.

Lemma ofCategory_sameText c l l' :
  Forall2 sameText l l' ->
  Forall2 sameText (ofCategory categorizeFoodItem c l)
                   (ofCategory categorizeFoodItem c l').
Proof.
  unfold ofCategory. induction 1 as [|x x' l l' Hx _ IH]; cbn [List.filter];
    [done|].
  unfold sameText in Hx. rewrite Hx.
  destruct (String.eqb _ c); [|done]. by constructor.
Qed.

Lemma noteCandidates_sameText n n' :
  sameButDone n n' -> Forall2 sameText (noteCandidates n) (noteCandidates n').
Proof.
  intros (Hid & Htitle & Hcat & Hrec & Hdet & Htexts & _).
  unfold noteCandidates, recipeIngredients, isGroceryNote.
  rewrite Hrec, Hdet, Hcat. apply Forall2_app.
  - destruct (isRecipe n) as [[|]|]; try done.
    destruct (recipeDetails n) as [details|]; [|done].
    induction (ingredients details) as [|ing l IH]; cbn [map]; [done|].
    by constructor.
  - destruct (_ || _); [|done].
    apply sameText_fmap. rewrite <- !list_fmap_compose.
    change (item_text ∘ taskItem) with task_text. done.
Qed.

Lemma candidates_sameText notes notes' :
  Forall2 sameButDone notes notes' ->
  Forall2 sameText (candidates notes) (candidates notes').
Proof.
  unfold candidates. induction 1 as [|n n' notes notes' Hn _ IH];
    cbn [flat_map]; [done|].
  apply Forall2_app; [by apply noteCandidates_sameText|done].
Qed.

End SameTexts.

Lemma nonEmpty_sameText (l l' : list Item) :
  Forall2 sameText l l' ->
  fmap (M := list) item_text <$> nonEmpty l
  = fmap (M := list) item_text <$> nonEmpty l'.
Proof.
  intros Hl. pose proof (proj1 (sameText_fmap l l') Hl) as Heq.
  destruct Hl; [done|]. simpl. f_equal. exact Heq.
Qed.

(** X11.  Toggling a task never changes which grocery items the unified
    list shows: the list rebuilt from the notes returned by
    [toggleTaskDone] has, in both revisions, the same keys and under each
    key the same texts in the same order as the list built before. *)
Theorem toggling_a_task_keeps_the_grocery_texts (st : ScreenState)
    (noteId : string) (i : nat) (notes' : list Note) :
  toggleTaskDone (notes st) noteId i = Ret notes' ->
  exists outA outA' outB outB',
    NotesScreenA.buildUnifiedGroceryList st = Ret outA /\
    NotesScreenA.buildUnifiedGroceryList
      {| notes := notes'; unifiedGroceryList := unifiedGroceryList st |}
    = Ret outA' /\
    NotesScreenB.buildUnifiedGroceryList st = Ret outB /\
    NotesScreenB.buildUnifiedGroceryList
      {| notes := notes'; unifiedGroceryList := unifiedGroceryList st |}
    = Ret outB' /\
    (forall c, textsOf (unifiedGroceryList outA') c
               = textsOf (unifiedGroceryList outA) c) /\
    (forall c, textsOf (unifiedGroceryList outB') c
               = textsOf (unifiedGroceryList outB) c).
Proof.
  intros Htoggle.
  destruct (toggleTaskDone_returns _ _ _ _ Htoggle) as [_ Hsame].
  pose proof (candidates_sameText _ _ Hsame) as Hcands.
  destruct (buildUnifiedGroceryList_lookup st)
    as (outA & outB & HA & HB & HlookA & HlookB).
  destruct (buildUnifiedGroceryList_lookup
              {| notes := notes'; unifiedGroceryList := unifiedGroceryList st |})
    as (outA' & outB' & HA' & HB' & HlookA' & HlookB').
  cbn [notes] in HlookA', HlookB'.
  exists outA, outA', outB, outB'. repeat (split; [done|]).
  split; intros c; unfold textsOf.
  - rewrite HlookA, HlookA'. symmetry.
    by apply nonEmpty_sameText, ofCategory_sameText, firstOccurrences_sameText.
  - rewrite HlookB, HlookB'. symmetry.
    by apply nonEmpty_sameText, ofCategory_sameText, firstOccurrences_sameText.
Qed.

Lemma toggling_a_task_keeps_the_grocery_texts_witness :
  exists notes' outA',
    toggleTaskDone (notes sampleState) "2" 0 = Ret notes' /\
    NotesScreenA.buildUnifiedGroceryList
      {| notes := notes'; unifiedGroceryList := ∅ |} = Ret outA' /\
    textsOf (unifiedGroceryList outA') "dairy" = Some ["Milk"].
Proof.
  destruct (toggling_a_task_keeps_the_grocery_texts sampleState "2" 0
              [sampleRecipe;
               {| note_id := "2"; note_title := "Saturday";
                  note_category := "Shopping";
                  note_tasks := [ {| task_text := "milk"; task_done := false;
                                     task_category := "shopping" |} ];
                  isRecipe := None; recipeDetails := None |}])
    as (outA & outA' & _ & _ & HA & HA' & _ & _ & Htexts & _).
  - reflexivity.
  - eexists _, outA'. split; [reflexivity|]. split; [exact HA'|].
    rewrite (Htexts "dairy").
    assert (Ret outA = Ret {| notes := notes sampleState;
                              unifiedGroceryList :=
                                {["dairy" := [ingredientItem sampleRecipe "Milk"]]} |})
      as Hout by (rewrite <- HA; vm_compute; reflexivity).
    injection Hout as ->. reflexivity.
Defined.




(** * The grouped rendering of TaskList *)

Module TaskListFacts.
Import TaskList.

Section Grouped.

Context {A : Type} (truthy : A -> bool).
Implicit Types (tasks : list A) (noteGroups : list TaskGroup).

Lemma taskAt_Some tasks (z : Z) task :
  taskAt tasks z = Some task <->
  (0 <= z)%Z /\ tasks !! Z.to_nat z = Some task.
Proof.
  unfold taskAt. destruct (0 <=? z)%Z eqn:Hz.
  - apply Z.leb_le in Hz. split; [done|by intros [_ ?]].
  - apply Z.leb_gt in Hz. split; [done|]. intros [? _]. lia.
Qed.

Lemma groupItems_elem tasks group z :
  z ∈ groupItems truthy tasks group <->
  z ∈ taskIndices group /\
  exists task, taskAt tasks z = Some task /\ truthy task = true.
Proof.
  unfold groupItems. rewrite !list_elem_of_In, List.filter_In.
  destruct (taskAt tasks z) as [task|].
  - split; intros [Hin Ht]; (split; [done|]).
    + by exists task.
    + by destruct Ht as (? & [= <-] & ?).
  - split; intros [Hin Ht]; [done|]. by destruct Ht as (? & ? & ?).
Qed.

Lemma groupBlocks_elem tasks noteGroups title items :
  (title, items) ∈ groupBlocks (renderGrouped truthy tasks noteGroups) <->
  exists group, group ∈ noteGroups /\ title = tg_title group /\
                items = groupItems truthy tasks group.
Proof.
  cbn [renderGrouped groupBlocks]. rewrite list_elem_of_In, List.in_map_iff.
  split.
  - intros (group & [= <- <-] & Hin). exists group.
    by rewrite list_elem_of_In.
  - intros (group & Hin & -> & ->). exists group.
    by rewrite <- list_elem_of_In.
Qed.

Lemma inSomeGroup_spec noteGroups index :
  inSomeGroup noteGroups index = true <->
  exists group, group ∈ noteGroups /\ Z.of_nat index ∈ taskIndices group.
Proof.
  unfold inSomeGroup. rewrite existsb_exists. split.
  - intros (group & Hin & Hsome). apply existsb_exists in Hsome as (z & Hz & Heq).
    apply Z.eqb_eq in Heq. subst z. exists group. by rewrite !list_elem_of_In.
  - intros (group & Hin & Hz). exists group. rewrite <- list_elem_of_In.
    split; [done|]. apply existsb_exists. exists (Z.of_nat index).
    rewrite <- list_elem_of_In. split; [done|]. apply Z.eqb_refl.
Qed.

Lemma otherBlock_elem tasks noteGroups index :
  (exists others,
     otherBlock (renderGrouped truthy tasks noteGroups) = Some others /\
     index ∈ others) <->
  index < List.length tasks /\ inSomeGroup noteGroups index = false.
Proof.
  cbn [renderGrouped otherBlock]. unfold otherTasks.
  set (others := List.filter _ _).
  assert (index ∈ others <->
          index < List.length tasks /\ inSomeGroup noteGroups index = false)
    as Hothers.
  { unfold others. rewrite list_elem_of_In, List.filter_In, List.in_seq.
    rewrite negb_true_iff. split; [intros [? ?]|intros [? ?]]; split; (lia || done). }
  split.
  - intros (l & Hl & Hin). apply Hothers.
    destruct (0 <? List.length others)%nat; [|done]. by injection Hl as <-.
  - intros Hin. apply Hothers in Hin. exists others. split; [|done].
    destruct others as [|x l]; [by apply elem_of_nil in Hin|done].
Qed.

(** X13.  Which tasks the grouped rendering shows: a task is rendered
    under "Other Tasks" exactly when no note group names its position, and
    in the block of a group exactly when a group names its position and
    the task is truthy; an index that is not a position (negative or past
    the end) is rendered nowhere.  So every task is shown, except a falsy
    one that a group names. *)
Theorem grouped_rendering_covers tasks noteGroups :
  (forall index task, tasks !! index = Some task ->
     ((exists title items,
         (title, items) ∈ groupBlocks (renderGrouped truthy tasks noteGroups) /\
         Z.of_nat index ∈ items)
      <-> inSomeGroup noteGroups index = true /\ truthy task = true) /\
     ((exists others,
         otherBlock (renderGrouped truthy tasks noteGroups) = Some others /\
         index ∈ others)
      <-> inSomeGroup noteGroups index = false)) /\
  (forall title items z,
     (title, items) ∈ groupBlocks (renderGrouped truthy tasks noteGroups) ->
     z ∈ items -> (0 <= z < Z.of_nat (List.length tasks))%Z) /\
  (forall others index,
     otherBlock (renderGrouped truthy tasks noteGroups) = Some others ->
     index ∈ others -> index < List.length tasks).
Proof.
  split; [|split].
  - intros index task Hi. split.
    + rewrite inSomeGroup_spec. split.
      * intros (title & items & Hblock & Hin).
        apply groupBlocks_elem in Hblock as (group & Hg & _ & ->).
        apply groupItems_elem in Hin as (Hin & task' & Hat & Ht).
        apply taskAt_Some in Hat as [_ Hat]. rewrite Nat2Z.id, Hi in Hat.
        injection Hat as <-. split; [by exists group|done].
      * intros [(group & Hg & Hin) Ht].
        exists (tg_title group), (groupItems truthy tasks group). split.
        -- apply groupBlocks_elem. by exists group.
        -- apply groupItems_elem. split; [done|]. exists task. split; [|done].
           apply taskAt_Some. split; [lia|]. by rewrite Nat2Z.id.
    + rewrite otherBlock_elem. split; [by intros [_ ?]|].
      intros Hno. split; [|done]. by apply lookup_lt_Some with task.
  - intros title items z Hblock Hin.
    apply groupBlocks_elem in Hblock as (group & _ & _ & ->).
    apply groupItems_elem in Hin as (_ & task & Hat & _).
    apply taskAt_Some in Hat as [Hz Hat]. apply lookup_lt_Some in Hat. lia.
  - intros others index Hother Hin.
    assert (exists l,
              otherBlock (renderGrouped truthy tasks noteGroups) = Some l /\
              index ∈ l) as Hex by (by exists others).
    by apply otherBlock_elem in Hex as [? _].
Qed.

End Grouped.

Lemma grouped_rendering_covers_witness :
  groupBlocks (renderGrouped toBoolean sampleTasks errandGroups)
  = [("Errands", [0%Z]); ("Home", [0%Z])] /\
  otherBlock (renderGrouped toBoolean (sampleTasks ++ [JSNull]) errandGroups)
  = Some [1].
Proof.
  split; [reflexivity|].
  destruct (grouped_rendering_covers toBoolean (sampleTasks ++ [JSNull])
              errandGroups) as (Hcover & _ & _).
  destruct (Hcover 1 JSNull eq_refl) as [_ [_ Hother]].
  destruct (Hother eq_refl) as (others & Hsome & _).
  rewrite Hsome. f_equal.
  assert (Some others = Some [1]) as Heq by (rewrite <- Hsome; reflexivity).
  by injection Heq.
Defined.

End TaskListFacts.

(** * When the dispatcher shows the error view *)

Section DispatcherErrors.

Context `{Engine}.
Import ContentTypeDetector.

Lemma andM_Ret a b : Ret a &&& Ret b = Ret (a && b).
Proof. by destruct a. Qed.

(** Reading a property of a value that is neither [null] nor [undefined]
    returns. *)
Lemma get_returns v key :
  isNullish v = false -> exists x, get v key = Ret x.
Proof. destruct v; try done; by eexists. Qed.

Lemma truthyProp_returns v key :
  isNullish v = false -> exists b, truthyProp v key = Ret b.
Proof.
  intros Hv. unfold truthyProp. destruct (get_returns v key Hv) as [x ->].
  by eexists.
Qed.

Lemma arrayProp_returns v key :
  isNullish v = false -> exists b, arrayProp v key = Ret b.
Proof.
  intros Hv. unfold arrayProp. destruct (get_returns v key Hv) as [x ->].
  by eexists.
Qed.

Lemma isGroceryList_returns pc :
  isNullish pc = false -> exists b, isGroceryList pc = Ret b.
Proof.
  intros Hpc. unfold isGroceryList, truthyProp.
  destruct (get_returns pc "categories" Hpc) as [categories ->]. cbn [bind].
  destruct categories as [| |[]|[| |m e]|s|l|props]; cbn; try by eexists.
  - destruct (negb (m =? 0)%Z); by eexists.
  - destruct (negb (String.eqb s "")); by eexists.
  - destruct (toBoolean (default JSUndefined (lookupProperty "produce" props)));
      [by eexists|].
    destruct (toBoolean (default JSUndefined (lookupProperty "dairy" props)));
      by eexists.
Qed.

(** Apart from the first element of an array, nothing the classification
    reads can make it throw. *)
Lemma classify_throws content title pc :
  parseContent content = Ret pc ->
  (exists e, classify content title = Throw e) <-> unreadable pc = true.
Proof.
  intros Hparse. unfold classify. rewrite Hparse. cbn [bind].
  assert (forall (v : View), (exists e, Ret v = Throw e) <-> false = true)
    as Hret by (intros; split; [by intros [? ?]|done]).
  destruct pc as [| |b|n|s|[|first rest]|props].
  - cbn. split; [done|by eexists].
  - cbn. split; [done|by eexists].
  - cbn. apply Hret.
  - cbn. apply Hret.
  - cbn. destruct (String.length s); apply Hret.
  - cbn. apply Hret.
  - destruct first; cbn -[lookupProperty];
      try (split; [done|by eexists]);
      repeat match goal with
             | |- context [isDefined ?v] => destruct (isDefined v)
             end;
      cbn; apply Hret.
  - assert (isNullish (JSObject props) = false) as Hnull by done.
    unfold isTaskExtraction, isCategorizedTasks, isRecipeFormat,
      hasContentField, isSimpleTaskList, isText.
    destruct (isGroceryList_returns _ Hnull) as [grocery ->].
    destruct (truthyProp_returns _ "tasks" Hnull) as [b1 ->].
    destruct (arrayProp_returns _ "tasks" Hnull) as [b2 ->].
    destruct (truthyProp_returns _ "intent" Hnull) as [b3 ->].
    destruct (truthyProp_returns _ "noteGroups" Hnull) as [b4 ->].
    destruct (arrayProp_returns _ "noteGroups" Hnull) as [b5 ->].
    destruct (truthyProp_returns _ "title" Hnull) as [b6 ->].
    destruct (truthyProp_returns _ "ingredients" Hnull) as [b7 ->].
    destruct (arrayProp_returns _ "ingredients" Hnull) as [b8 ->].
    destruct (truthyProp_returns _ "instructions" Hnull) as [b9 ->].
    destruct (arrayProp_returns _ "instructions" Hnull) as [b10 ->].
    destruct (truthyProp_returns _ "content" Hnull) as [b11 ->].
    destruct (get_returns _ "tasks" Hnull) as [tasks ->].
    destruct (get_returns _ "noteGroups" Hnull) as [groups ->].
    destruct (get_returns _ "content" Hnull) as [content' ->].
    destruct (get_returns _ "title" Hnull) as [title' ->].
    rewrite !andM_Ret. cbn [bind isArray andb unreadable isNullish].
    destruct (b1 && b2 && b3); [apply Hret|].
    destruct (b1 && b2 && b4 && b5); [apply Hret|].
    destruct grocery; [apply Hret|].
    destruct (b6 && b7 && b8 && b9 && b10); [apply Hret|].
    cbn [andM bind].
    destruct (_ && lengthPositive _); [apply Hret|].
    destruct b11; cbn [bind]; [destruct (String.eqb _ _)|]; apply Hret.
Qed.

(** The classification itself never selects the error view. *)
Lemma classify_not_error content title msg raw :
  classify content title <> Ret (ErrorView msg raw).
Proof.
  unfold classify.
  repeat (match goal with
          | |- context [bind ?m _] => destruct m as [[]|]
          | |- context [bind ?m _] => destruct m
          end; cbn [bind]); done.
Qed.

(** X14.  The dispatcher shows the error view in one situation only: the
    payload is truthy and its parsed form is [null] or [undefined], or an
    array whose first element is [null] or [undefined] (the text [null],
    for instance, or the array [[null]]).  Every other payload gets one of
    the regular views. *)
Theorem error_view_exactly_when (content : JSValue) (title : option string) :
  (exists msg raw, ContentTypeDetector content title = Ret (ErrorView msg raw))
  <-> toBoolean content = true /\
      exists pc, parseContent content = Ret pc /\ unreadable pc = true.
Proof.
  split.
  - intros (msg & raw & Hview). unfold ContentTypeDetector in Hview.
    destruct (toBoolean content) eqn:Ht; [|done]. cbn [negb] in Hview.
    destruct (parseContent content) as [pc|e] eqn:Hparse.
    + rewrite (plainNote_parsed _ _ _ Hparse) in Hview.
      split; [done|]. exists pc. split; [done|].
      apply (classify_throws content title pc Hparse).
      destruct (classify content title) as [v|e] eqn:Hc; [|by eexists].
      cbn in Hview. injection Hview as ->.
      by apply classify_not_error in Hc.
    + destruct content; cbn in Hparse; try done.
      cbn in Hview. by rewrite Hparse in Hview.
  - intros (Ht & pc & Hparse & Hun).
    destruct (proj2 (classify_throws content title pc Hparse) Hun) as [e He].
    unfold ContentTypeDetector.
    rewrite Ht, (plainNote_parsed _ _ _ Hparse), He. by eexists _, _.
Qed.

End DispatcherErrors.

Lemma error_view_exactly_when_witness :
  exists msg raw,
    @ContentTypeDetector.ContentTypeDetector sampleEngine
      (JSArray [JSNull; JSBool true]) (Some "Note")
    = Ret (ContentTypeDetector.ErrorView msg raw).
Proof.
  apply (error_view_exactly_when (H := sampleEngine)).
  split; [reflexivity|]. eexists. split; reflexivity.
Defined.

(** * NoteScreen *)

Section NoteScreenOffline.

Context `{Engine}.
Variable create : Gateway.ChatRequest -> result JSValue.
Variable createEnhance : string -> result JSValue.
Import ContentTypeDetector Gateway NoteScreen.

(** X15.  What the note screen shows when the model cannot be reached.
    A blank input leaves the result as it was, in every mode.  For any
    other input, when every request is rejected: in the tasks mode and in
    the default mode the dispatcher gets the fallback object and renders
    a task list without tasks, which [TaskList] shows as "No tasks yet";
    in the grocery mode it renders the grocery list of the six empty
    categories; in the enhance mode the result is the input text itself,
    and the dispatcher is run on it.  In no mode is the placeholder
    shown. *)
Theorem offline_note_screen (input noteTitle : string) (res : JSValue) :
  (JS.trim input = "" ->
   forall mode, processText create createEnhance mode input res = res) /\
  (JS.trim input <> "" ->
   (forall request, exists e, create request = Throw e) ->
   (exists e, createEnhance input = Throw e) ->
   (resultContainer
      (processText create createEnhance (Some TasksMode) input res) noteTitle
    = Some (Ret (TaskListView [] None (Some false))) /\
    TaskList.TaskList [] None (Some false) = Ret TaskList.EmptyTasks) /\
   (resultContainer
      (processText create createEnhance None input res) noteTitle
    = Some (Ret (TaskListView [] (Some []) None)) /\
    TaskList.TaskList [] (Some []) None = Ret TaskList.EmptyTasks) /\
   resultContainer
     (processText create createEnhance (Some GroceryMode) input res) noteTitle
   = Some (Ret (GroceryListView groceryDefault)) /\
   processText create createEnhance (Some EnhanceMode) input res
   = JSString input /\
   resultContainer
     (processText create createEnhance (Some EnhanceMode) input res) noteTitle
   = Some (ContentTypeDetector (JSString input) (Some noteTitle))).
Proof.
  unfold processText. split.
  - intros ->. done.
  - intros Hinput Hcreate [e Henhance].
    apply String.eqb_neq in Hinput. rewrite Hinput.
    unfold extractTasksFromText, categorizeTasksAndSuggestNotes,
      extractGroceryList, enhanceTranscribedText.
    destruct (Hcreate (intentRequest input)) as [e1 ->].
    destruct (Hcreate (categorizeRequest input)) as [e2 ->].
    destruct (Hcreate (groceryRequest input)) as [e3 ->].
    rewrite Henhance. cbn [try_catch bind].
    repeat split.
    unfold resultContainer.
    assert (toBoolean (JSString input) = true) as ->; [|done].
    cbn. destruct input; [|done]. by vm_compute in Hinput.
Qed.

End NoteScreenOffline.

Lemma offline_note_screen_witness :
  JS.trim "  buy milk " <> "" /\
  @NoteScreen.resultContainer sampleEngine
    (@NoteScreen.processText sampleEngine offlineClient
       (fun _ => Throw (RejectedError "Network request failed"))
       None "  buy milk " JSNull) "New Note"
  = Some (Ret (ContentTypeDetector.TaskListView [] (Some []) None)).
Proof.
  assert (JS.trim "  buy milk " <> "") as Hinput by (by vm_compute).
  split; [exact Hinput|].
  destruct (offline_note_screen (H := sampleEngine) offlineClient
              (fun _ => Throw (RejectedError "Network request failed"))
              "  buy milk " "New Note" JSNull) as [_ Hoffline].
  destruct Hoffline as (_ & [Hdefault _] & _).
  - exact Hinput.
  - intros request. eexists. reflexivity.
  - eexists. reflexivity.
  - exact Hdefault.
Defined.

(** * API key checks *)

Module ApiKeysFacts.
Import ApiKeys.

Lemma length_append (s1 s2 : string) :
  String.length (s1 +:+ s2) = String.length s1 + String.length s2.
Proof. induction s1 as [|c s1 IH]; simpl; [done|]. by rewrite IH. Qed.

Lemma length_substring (s : string) (n m : nat) :
  n + m <= String.length s -> String.length (String.substring n m s) = m.
Proof.
  revert n m. induction s as [|c s IH]; intros [|n] [|m]; cbn; try lia.
  - intros Hle. rewrite (IH 0 m); lia.
  - intros Hle. apply (IH n 0). lia.
  - intros Hle. apply (IH n (S m)). lia.
Qed.

Lemma substring_add (s : string) (a b c : nat) :
  String.substring a (b + c) s
  = String.substring a b s +:+ String.substring (a + b) c s.
Proof.
  revert a b. induction s as [|ch s IH]; intros [|a] [|b]; cbn;
    try done; try (by destruct c).
  - by rewrite (IH 0 b).
  - apply (IH a 0).
  - apply (IH a (S b)).
Qed.

Lemma substring_all (s : string) : String.substring 0 (String.length s) s = s.
Proof. induction s as [|c s IH]; cbn; [done|]. by rewrite IH. Qed.

Lemma substring_in_range (s : string) (start stop : nat) :
  start <= stop <= String.length s ->
  substring s start stop = String.substring start (stop - start) s.
Proof.
  intros Hle. unfold substring. cbv zeta.
  rewrite (Nat.min_l start), (Nat.min_l stop) by lia.
  by rewrite Nat.min_l, Nat.max_r by lia.
Qed.

(** X16.  What [maskApiKey] shows of a key.  Its output has at most
    eleven characters; it is "Not set" for the empty key only; and a key
    that [isValidApiKey] accepts is shown as its first four characters,
    three dots and its last four characters, with at least two characters
    of the key left out between them. *)
Theorem maskApiKey_hides (key : string) :
  String.length (maskApiKey key) <= 11 /\
  (maskApiKey key = "Not set" <-> key = "") /\
  (isValidApiKey key = true ->
   exists first middle last,
     key = first +:+ middle +:+ last /\
     String.length first = 4 /\ String.length last = 4 /\
     2 <= String.length middle /\
     maskApiKey key = first +:+ "..." +:+ last).
Proof.
  assert (8 < String.length key ->
          exists first middle last,
            key = first +:+ middle +:+ last /\
            String.length first = 4 /\ String.length last = 4 /\
            String.length middle = String.length key - 8 /\
            substring key 0 4 = first /\
            substring key (String.length key - 4) (String.length key) = last)
    as Hparts.
  { intros Hlen.
    exists (String.substring 0 4 key),
           (String.substring 4 (String.length key - 8) key),
           (String.substring (String.length key - 4) 4 key).
    split; [|split; [|split; [|split; [|split]]]].
    - rewrite <- (substring_all key) at 1.
      replace (String.length key) with (4 + ((String.length key - 8) + 4))
        at 1 by lia.
      rewrite (substring_add key 0), (substring_add key (0 + 4)).
      do 3 f_equal. lia.
    - apply length_substring. lia.
    - apply length_substring. lia.
    - apply length_substring. lia.
    - by rewrite substring_in_range by lia.
    - rewrite substring_in_range by lia. f_equal. lia. }
  unfold maskApiKey, isValidApiKey.
  destruct (String.eqb key "") eqn:Hempty.
  { apply String.eqb_eq in Hempty. split; [cbn; lia|]. by split. }
  apply String.eqb_neq in Hempty.
  destruct (String.length key <=? 8)%nat eqn:Hshort.
  { apply Nat.leb_le in Hshort. split; [cbn; lia|]. split; [by split|].
    destruct (String.length key <? 10)%nat eqn:Hten; [done|].
    apply Nat.ltb_ge in Hten. lia. }
  apply Nat.leb_gt in Hshort.
  destruct (Hparts Hshort)
    as (first & middle & last & Hkey & Hfirst & Hlast & Hmiddle & -> & ->).
  assert (String.length (first +:+ "..." +:+ last) = 11) as Hmask
    by (rewrite !length_append, Hfirst, Hlast; done).
  split; [lia|]. split.
  - split; [|done]. intros Heq. by rewrite Heq in Hmask.
  - destruct (String.length key <? 10)%nat eqn:Hten; [done|].
    apply Nat.ltb_ge in Hten. intros _.
    exists first, middle, last. repeat (split; [done || lia|]). done.
Qed.

Lemma maskApiKey_hides_witness :
  isValidApiKey "sk-test-0123456789" = true /\
  exists first middle last,
    "sk-test-0123456789" = first +:+ middle +:+ last /\
    String.length first = 4 /\ String.length last = 4 /\
    2 <= String.length middle /\
    maskApiKey "sk-test-0123456789" = first +:+ "..." +:+ last.
Proof.
  split; [reflexivity|].
  destruct (maskApiKey_hides "sk-test-0123456789") as (_ & _ & Hvalid).
  exact (Hvalid eq_refl).
Defined.

End ApiKeysFacts.

(** * Toggling a task on the note screen *)

Section NoteScreenToggle.

Context `{Engine}.
Import ContentTypeDetector NoteScreen.

Lemma lookupProperty_setProperty_eq properties key value :
  lookupProperty key (setProperty key value properties) = Some value.
Proof.
  induction properties as [|[k v] rest IH]; cbn [setProperty lookupProperty].
  - by rewrite String.eqb_refl.
  - destruct (String.eqb k key) eqn:Hk; cbn [lookupProperty]; by rewrite Hk.
Qed.

Lemma lookupProperty_setProperty_ne properties key key' value :
  key' <> key ->
  lookupProperty key' (setProperty key value properties)
  = lookupProperty key' properties.
Proof.
  intros Hne.
  induction properties as [|[k v] rest IH]; cbn [setProperty lookupProperty].
  - by rewrite (proj2 (String.eqb_neq key key')).
  - destruct (String.eqb k key) eqn:Hk; cbn [lookupProperty].
    + apply String.eqb_eq in Hk as ->.
      by rewrite (proj2 (String.eqb_neq key key')).
    + by rewrite IH.
Qed.

Lemma get_tasks_array res tasks :
  get res "tasks" = Ret (JSArray tasks) ->
  exists properties,
    res = JSObject properties /\
    lookupProperty "tasks" properties = Some (JSArray tasks).
Proof.
  destruct res as [| | | | |elements|properties]; cbn; try done.
  intros Hlook. exists properties. split; [done|].
  destruct (lookupProperty "tasks" properties); cbn in Hlook; congruence.
Qed.

Lemma get_nullish task key :
  (exists e, get task key = Throw e) <-> isNullish task = true.
Proof.
  destruct task; cbn; split; try done; try (by intros [e ?]); by eexists.
Qed.

Lemma classify_object_tasks properties tasks title ts ng sc :
  lookupProperty "tasks" properties = Some (JSArray tasks) ->
  classify (JSObject properties) title = Ret (TaskListView ts ng sc) ->
  ts = tasks /\
  forall tasks',
    classify (JSObject (setProperty "tasks" (JSArray tasks') properties)) title
    = Ret (TaskListView tasks' ng sc).
Proof.
  intros Hlook. unfold classify, isTaskExtraction, isCategorizedTasks,
    truthyProp, arrayProp.
  cbn [parseContent get bind andM].
  rewrite Hlook.
  cbn [default from_option id toBoolean isArray bind andM elementsOf].
  intros Hc.
  cut (forall tasks',
         ts = tasks /\
         classify (JSObject (setProperty "tasks" (JSArray tasks') properties))
                  title
         = Ret (TaskListView tasks' ng sc)).
  { intros Hall. split; [apply (Hall [])|apply Hall]. }
  intros tasks'. unfold classify, isTaskExtraction, isCategorizedTasks,
    truthyProp, arrayProp.
  cbn [parseContent get bind andM].
  rewrite lookupProperty_setProperty_eq.
  rewrite !(lookupProperty_setProperty_ne _ "tasks") by done.
  cbn [default from_option id toBoolean isArray bind andM elementsOf].
  destruct (toBoolean (default JSUndefined (lookupProperty "intent" properties))).
  { injection Hc as <- <- <-. done. }
  destruct (toBoolean (default JSUndefined
                         (lookupProperty "noteGroups" properties)));
    cbn [bind] in Hc |- *;
    [destruct (isArray (default JSUndefined
                          (lookupProperty "noteGroups" properties)))|].
  { injection Hc as <- <- <-. done. }
  all: exfalso; unfold isSimpleTaskList in Hc; cbn [isArray andM bind] in Hc;
    repeat (match type of Hc with
            | context [bind ?m _] => destruct m as [[]|]
            end; cbn [bind] in Hc); done.
Qed.

Lemma handleToggleTask_unchanged index res :
  (forall tasks, get res "tasks" <> Ret (JSArray tasks)) ->
  handleToggleTask index res = Ret res.
Proof.
  intros Hnot. unfold handleToggleTask, truthyProp, arrayProp.
  destruct (get res "tasks") as [x|e] eqn:Hget.
  - destruct x as [| | | | |elements|];
      try (by destruct (toBoolean res); cbn [andM bind];
           try destruct (toBoolean _)).
    by destruct (Hnot elements).
  - assert (toBoolean res = false) as ->; [|done].
    by destruct res.
Qed.

Lemma handleToggleTask_object index properties tasks :
  lookupProperty "tasks" properties = Some (JSArray tasks) ->
  handleToggleTask index (JSObject properties)
  = let task := default JSUndefined (tasks !! index) in
    let* done := get task "done" in
    Ret (JSObject
           (setProperty "tasks"
              (JSArray (<[index := JSObject
                                     (setProperty "done"
                                        (JSBool (negb (toBoolean done)))
                                        (spread task))]> tasks))
              properties)).
Proof.
  intros Hlook. unfold handleToggleTask, truthyProp, arrayProp.
  cbn [get]. by rewrite Hlook.
Qed.

Lemma tasks_array_or_not res :
  (forall tasks, get res "tasks" <> Ret (JSArray tasks)) \/
  (exists tasks, get res "tasks" = Ret (JSArray tasks)).
Proof.
  destruct (get res "tasks") as [x|e]; [destruct x|];
    (by right; eexists) || (by left).
Qed.

(** X17.  [handleToggleTask] on the note screen.  A result whose [tasks]
    is not an array is left as it is, so a result that is itself an array
    of tasks, or a text, is never changed.  Otherwise the task at the
    position gets [done] set to the negation of its old truthiness, every
    other property of the result and, for a task object, of the task stays
    as it was; the call throws when the position holds no task or holds
    [null] or [undefined]. *)
Theorem handleToggleTask_flips (index : nat) (res : JSValue) :
  ((forall tasks, get res "tasks" <> Ret (JSArray tasks)) ->
   handleToggleTask index res = Ret res) /\
  (forall tasks, get res "tasks" = Ret (JSArray tasks) ->
     (forall task, tasks !! index = Some task -> isNullish task = false ->
        exists res' task' done,
          handleToggleTask index res = Ret res' /\
          get res' "tasks" = Ret (JSArray (<[index := task']> tasks)) /\
          (forall key, key <> "tasks" -> get res' key = get res key) /\
          get task "done" = Ret done /\
          get task' "done" = Ret (JSBool (negb (toBoolean done))) /\
          (forall properties key,
             task = JSObject properties -> key <> "done" ->
             get task' key = get task key)) /\
     ((tasks !! index = None \/
       exists task, tasks !! index = Some task /\ isNullish task = true) ->
      exists e, handleToggleTask index res = Throw e)).
Proof.
  split; [apply handleToggleTask_unchanged|].
  - intros tasks Hget.
    destruct (get_tasks_array _ _ Hget) as (properties & -> & Hlook).
    rewrite (handleToggleTask_object _ _ _ Hlook). cbv zeta. split.
    + intros task Hi Hnull. rewrite Hi. cbn [default from_option id].
      destruct (get task "done") as [d|e] eqn:Hdone.
      2: { assert (isNullish task = true) by (apply (get_nullish task "done"); by eexists).
           congruence. }
      cbn [bind]. eexists _, _, d. split; [reflexivity|].
      cbn [get]. rewrite lookupProperty_setProperty_eq.
      split; [done|]. split.
      { intros key Hkey. by rewrite lookupProperty_setProperty_ne. }
      split; [done|]. cbn [get]. rewrite lookupProperty_setProperty_eq.
      split; [done|]. intros props key -> Hkey. cbn [spread get].
      by rewrite lookupProperty_setProperty_ne.
    + intros [Hnone|(task & Hi & Hnull)].
      * rewrite Hnone. cbn. by eexists.
      * rewrite Hi. cbn [default from_option id].
        destruct (proj2 (get_nullish task "done") Hnull) as [e ->].
        by eexists.
Qed.

(** X18.  Toggling keeps the task list on screen.  When the dispatcher
    shows a task list for the result and [handleToggleTask] returns, the
    dispatcher shows a task list for the new result too, with the same
    note groups and the same setting of the categories.  For a result with
    a [tasks] array the list shown differs at the toggled position only,
    where [done] is negated; for any other result (an array of tasks, a
    text holding JSON) the result and the list shown are unchanged, so
    the checkbox has no effect. *)
Theorem toggling_keeps_the_task_list (index : nat) (res res' : JSValue)
    (title : option string) (ts : list JSValue) (ng : option (list JSValue))
    (sc : option bool) :
  ContentTypeDetector res title = Ret (TaskListView ts ng sc) ->
  handleToggleTask index res = Ret res' ->
  exists ts',
    ContentTypeDetector res' title = Ret (TaskListView ts' ng sc) /\
    ((forall tasks, get res "tasks" <> Ret (JSArray tasks)) ->
     res' = res /\ ts' = ts) /\
    (forall tasks, get res "tasks" = Ret (JSArray tasks) ->
       tasks = ts /\
       exists task task' done,
         ts !! index = Some task /\ ts' = <[index := task']> ts /\
         get task "done" = Ret done /\
         get task' "done" = Ret (JSBool (negb (toBoolean done)))).
Proof.
  intros Hview Htoggle.
  destruct (tasks_array_or_not res) as [Hnot|[tasks Hget]].
  - rewrite (handleToggleTask_unchanged _ _ Hnot) in Htoggle.
    injection Htoggle as <-. exists ts. split; [done|]. split; [done|].
    intros tasks Hget. by destruct (Hnot tasks).
  - destruct (get_tasks_array _ _ Hget) as (properties & -> & Hlook).
    rewrite (handleToggleTask_object _ _ _ Hlook) in Htoggle.
    cbv zeta in Htoggle.
    destruct (tasks !! index) as [task|] eqn:Hi; [|done].
    cbn [default from_option id] in Htoggle.
    destruct (get task "done") as [d|] eqn:Hdone; [|done].
    cbn [bind] in Htoggle. injection Htoggle as <-.
    unfold ContentTypeDetector in Hview |- *.
    cbn [toBoolean negb plainNote] in Hview |- *.
    destruct (classify (JSObject properties) title) as [view|] eqn:Hc;
      [|done].
    cbn [try_catch] in Hview. injection Hview as ->.
    destruct (classify_object_tasks _ _ _ _ _ _ Hlook Hc) as [-> Hc'].
    eexists. rewrite Hc'. split; [done|]. split.
    + intros Hnot. by destruct (Hnot tasks).
    + intros tasks' Hget'. rewrite Hget in Hget'. injection Hget' as <-.
      split; [done|]. eexists task, _, d. split; [done|].
      split; [done|]. split; [done|].
      cbn [get]. by rewrite lookupProperty_setProperty_eq.
Qed.

End NoteScreenToggle.

Lemma handleToggleTask_flips_witness :
  NoteScreen.handleToggleTask 0 (JSArray sampleTasks) = Ret (JSArray sampleTasks) /\
  (exists res' task' done,
     NoteScreen.handleToggleTask 0 taskExtractionPayload = Ret res' /\
     get res' "tasks" = Ret (JSArray (<[0 := task']> sampleTasks)) /\
     get (JSObject [ ("text", JSString "buy milk"); ("done", JSBool false) ])
         "done" = Ret done /\
     get task' "done" = Ret (JSBool (negb (toBoolean done)))) /\
  exists e, NoteScreen.handleToggleTask 3 taskExtractionPayload = Throw e.
Proof.
  destruct (handleToggleTask_flips 0 (JSArray sampleTasks)) as [Hsame _].
  destruct (handleToggleTask_flips 0 taskExtractionPayload) as [_ Hobject].
  destruct (Hobject sampleTasks eq_refl) as [Hflip _].
  destruct (Hflip _ eq_refl eq_refl)
    as (res' & task' & done & Hret & Htasks & _ & Hdone & Hdone' & _).
  destruct (handleToggleTask_flips 3 taskExtractionPayload) as [_ Hobject'].
  destruct (Hobject' sampleTasks eq_refl) as [_ Hthrow].
  split; [|split].
  - apply Hsame. intros tasks. discriminate.
  - exists res', task', done. split; [exact Hret|]. split; [exact Htasks|].
    split; [exact Hdone|exact Hdone'].
  - apply Hthrow. left. reflexivity.
Defined.

Lemma toggling_keeps_the_task_list_witness :
  exists ts',
    @ContentTypeDetector.ContentTypeDetector sampleEngine
      (JSObject [ ("tasks",
                   JSArray [ JSObject [ ("text", JSString "buy milk");
                                        ("done", JSBool true) ] ]);
                  ("intent", JSString "new"); ("reason", JSString "x") ])
      (Some "Note")
    = Ret (ContentTypeDetector.TaskListView ts' None (Some false)).
Proof.
  destruct (toggling_keeps_the_task_list (H := sampleEngine) 0
              taskExtractionPayload
              (JSObject [ ("tasks",
                           JSArray [ JSObject [ ("text", JSString "buy milk");
                                                ("done", JSBool true) ] ]);
                          ("intent", JSString "new"); ("reason", JSString "x") ])
              (Some "Note") sampleTasks None (Some false))
    as (ts' & Hview & _).
  - reflexivity.
  - reflexivity.
  - exists ts'. exact Hview.
Defined.
